(** * agent_container.py: the message dispatch protocol

    A shallow embedding of [src/agent_container.py].  The program talks to
    three collaborators: the coordination service (through [requests]), the
    pluggable agent class, and the logger.  Every interaction is recorded as
    an [event]; a computation reads the history of events so far (the
    service may answer differently over time) and returns either a value or
    a raised exception, together with the events it emitted.

    What the model fixes:
    - scores and thresholds are binary64 floats, compared as Python compares
      them;
    - the methods of an agent are functions of the message: they may raise,
      they do not change the message they are given;
    - every exception that is modelled derives from [Exception], so
      [except Exception] catches it.  A [SystemExit] or [KeyboardInterrupt]
      raised inside the agent or a request would pass every [except] of the
      file; such runs are not modelled.  The [KeyboardInterrupt] that ends
      [main] is taken to arrive between two cycles, after a given number of
      whole cycles: a run interrupted during the registration, or in the
      middle of a cycle, is not modelled either;
    - a string is the sequence of its characters, one [ascii] each. *)

From Stdlib Require Import List String ZArith Bool Lia Floats.
Import ListNotations.
Local Open Scope string_scope.
Local Open Scope list_scope.
Local Set Warnings "-register-all".

(** ** Python values

    JSON-shaped values: what [response.json()] yields and what an agent
    returns.  A dict keeps its insertion order, as in Python. *)

Inductive pyval : Type :=
| PNone
| PBool (b : bool)
| PInt (n : Z)
| PFloat (x : float)
| PStr (s : string)
| PList (l : list pyval)
| PDict (d : list (string * pyval)).

Inductive exn : Type :=
| KeyError (key : string)
| TypeError (detail : string)
| AttributeError (attr : string)
| JSONDecodeError
| RequestException (detail : string)
| AgentError (detail : string).

Definition result (A : Type) : Type := (exn + A)%type.

Module Dict.

Definition t : Type := list (string * pyval).

Fixpoint get (d : t) (k : string) : option pyval :=
  match d with
  | [] => None
  | (k', v) :: d' => if String.eqb k' k then Some v else get d' k
  end.

(** [k in d] *)
Definition contains (d : t) (k : string) : bool :=
  match get d k with Some _ => true | None => false end.

(** [d[k] = v]: an existing key keeps its position, a new key goes last. *)
Fixpoint set (d : t) (k : string) (v : pyval) : t :=
  match d with
  | [] => [(k, v)]
  | (k', v') :: d' =>
      if String.eqb k' k then (k, v) :: d' else (k', v') :: set d' k v
  end.

Definition keys (d : t) : list pyval := map (fun kv => PStr (fst kv)) d.

End Dict.

Definition is_dict (v : pyval) : bool :=
  match v with PDict _ => true | _ => false end.

(** [bool(v)] *)
Definition truthy (v : pyval) : bool :=
  match v with
  | PNone => false
  | PBool b => b
  | PInt n => negb (n =? 0)%Z
  | PFloat x => negb (PrimFloat.eqb x 0%float)
  | PStr s => match s with EmptyString => false | String _ _ => true end
  | PList l => match l with [] => false | _ :: _ => true end
  | PDict d => match d with [] => false | _ :: _ => true end
  end.

(** [v[k]] for a string key [k] *)
Definition py_getitem (v : pyval) (k : string) : result pyval :=
  match v with
  | PDict d =>
      match Dict.get d k with
      | Some x => inr x
      | None => inl (KeyError k)
      end
  | PList _ => inl (TypeError "list indices must be integers or slices, not str")
  | PStr _ => inl (TypeError "string indices must be integers")
  | _ => inl (TypeError "object is not subscriptable")
  end.

(** [v.get(k, default)]: only a dict has the method. *)
Definition py_get (v : pyval) (k : string) (default : pyval) : result pyval :=
  match v with
  | PDict d =>
      match Dict.get d k with
      | Some x => inr x
      | None => inr default
      end
  | _ => inl (AttributeError "get")
  end.

(** [len(v)] *)
Definition py_len (v : pyval) : result Z :=
  match v with
  | PStr s => inr (Z.of_nat (String.length s))
  | PList l => inr (Z.of_nat (List.length l))
  | PDict d => inr (Z.of_nat (List.length d))
  | _ => inl (TypeError "object has no len()")
  end.

Fixpoint chars (s : string) : list pyval :=
  match s with
  | EmptyString => []
  | String c s' => PStr (String c EmptyString) :: chars s'
  end.

(** The items that [for x in v] visits. *)
Definition py_iter (v : pyval) : result (list pyval) :=
  match v with
  | PStr s => inr (chars s)
  | PList l => inr l
  | PDict d => inr (Dict.keys d)
  | _ => inl (TypeError "object is not iterable")
  end.

(** ** The collaborators *)

Module Agent.

(** An instance of the agent class.  Its methods may raise. *)
Record t : Type := mk {
  calculate_interest : pyval -> result float;
  classifier_threshold : float;
  process_message : pyval -> result pyval
}.

End Agent.

Inductive http_method : Type := GET | POST.

(** The paths under [CORE_API_URL]; the message id is formatted into the
    two per-message paths. *)
Inductive path : Type :=
| api_agents_register
| api_messages_pending
| api_agents_subscribe
| api_messages_interest (id : pyval)
| api_messages_process (id : pyval).

Record request : Type := mkRequest {
  method : http_method;
  base : string;
  target : path;
  payload : pyval    (* [json=] of a POST, [params=] of a GET *)
}.

Record response : Type := mkResponse {
  status_code : Z;
  text : string;
  json : result pyval
}.

Inductive level : Type := DEBUG | INFO | WARNING | ERROR.

(** A value interpolated into a log line. *)
Inductive farg : Type :=
| AVal (v : pyval)
| AExn (e : exn).

Inductive event : Type :=
| EvNew (ok : bool)                                   (* AgentClass() *)
| EvInterest (message : pyval) (r : result float)     (* agent.calculate_interest *)
| EvProcess (message : pyval) (r : result pyval)      (* agent.process_message *)
| EvHttp (rq : request) (r : result response)         (* requests.get / requests.post *)
| EvLog (lvl : level) (template : string) (args : list farg)
| EvSleep (seconds : Z).

Definition trace : Type := list event.

(** The environment of one run: the three environment variables that the
    module reads, the container's [HOSTNAME], the agent class chosen at
    import time, and the coordination service, whose answer to a request
    may depend on everything that happened before. *)
Record env : Type := mkEnv {
  AGENT_ID : string;
  AGENT_NAME : string;
  CORE_API_URL : string;
  HOSTNAME : string;
  AgentClass : result Agent.t;
  net : trace -> request -> result response
}.

(** ** Computations *)

Definition M (A : Type) : Type := trace -> result A * trace.

Definition ret {A} (a : A) : M A := fun _ => (inr a, []).

Definition lift {A} (r : result A) : M A := fun _ => (r, []).

Definition bind {A B} (m : M A) (k : A -> M B) : M B :=
  fun h =>
    match m h with
    | (inl e, evs) => (inl e, evs)
    | (inr a, evs) =>
        let (r, evs') := k a (h ++ evs) in (r, evs ++ evs')
    end.

(** [try: body  except Exception as e: handler e] *)
Definition try_except {A} (body : M A) (handler : exn -> M A) : M A :=
  fun h =>
    match body h with
    | (inr a, evs) => (inr a, evs)
    | (inl e, evs) =>
        let (r, evs') := handler e (h ++ evs) in (r, evs ++ evs')
    end.

Definition emit (ev : event) : M unit := fun _ => (inr tt, [ev]).

Declare Scope py_scope.
Delimit Scope py_scope with py.
Notation "x <- c ;; k" := (bind c (fun x => k))
  (at level 61, c at next level, right associativity) : py_scope.
Notation "c ;;; k" := (bind c (fun _ => k))
  (at level 61, right associativity) : py_scope.
Local Open Scope py_scope.

(** [for x in xs: body x] *)
Fixpoint for_each {A} (body : A -> M unit) (xs : list A) : M unit :=
  match xs with
  | [] => ret tt
  | x :: xs' => body x ;;; for_each body xs'
  end.

Definition events {A} (m : M A) (h : trace) : trace := snd (m h).
Definition outcome {A} (m : M A) (h : trace) : result A := fst (m h).

Definition is_ok {A} (r : result A) : bool :=
  match r with inr _ => true | inl _ => false end.

Section Container.

Variable E : env.

Definition logger (lvl : level) (template : string) (args : list farg)
  : M unit :=
  emit (EvLog lvl template args).

Definition requests_call (mth : http_method) (p : path) (body : pyval)
  : M response :=
  fun h =>
    let rq := mkRequest mth (CORE_API_URL E) p body in
    let r := net E h rq in
    (r, [EvHttp rq r]).

Definition requests_post := requests_call POST.
Definition requests_get := requests_call GET.

Definition new_agent : M Agent.t :=
  fun _ => (AgentClass E, [EvNew (is_ok (AgentClass E))]).

Definition agent_calculate_interest (agent : Agent.t) (message : pyval)
  : M float :=
  fun _ =>
    let r := Agent.calculate_interest agent message in
    (r, [EvInterest message r]).

Definition agent_process_message (agent : Agent.t) (message : pyval)
  : M pyval :=
  fun _ =>
    let r := Agent.process_message agent message in
    (r, [EvProcess message r]).

Definition sleep (seconds : Z) : M unit := emit (EvSleep seconds).

Definition status (r : response) : farg := AVal (PInt (status_code r)).
Definition body_text (r : response) : farg := AVal (PStr (text r)).

(** *** register_with_core_system *)

Definition register_with_core_system : M bool :=
  try_except
    (response <- requests_post api_agents_register
        (PDict [("agent_id", PStr (AGENT_ID E));
                ("name", PStr (AGENT_NAME E));
                ("container_id", PStr (HOSTNAME E));
                ("status", PStr "running")]) ;;
     if (status_code response =? 200)%Z then
       logger INFO "Agent registered successfully with core system" [] ;;;
       ret true
     else
       logger ERROR "Failed to register with core system: {} - {}"
         [status response; body_text response] ;;;
       ret false)
    (fun e =>
       logger ERROR "Error registering with core system: {}" [AExn e] ;;;
       ret false).

(** *** subscribe_to_events *)

Definition subscribe_request : pyval :=
  PDict [("agent_id", PStr (AGENT_ID E));
         ("name", PStr (AGENT_NAME E));
         ("events", PList [PStr "message.new"]);
         ("callback_url", PStr (CORE_API_URL E ++ "/api/messages/process")%string)].

Definition subscribe_to_events : M bool :=
  try_except
    (response <- requests_post api_agents_subscribe subscribe_request ;;
     if (status_code response =? 200)%Z then
       logger INFO "Successfully subscribed to events" [] ;;;
       ret true
     else if (status_code response =? 404)%Z then
       logger DEBUG
         "Event subscription not implemented yet, using polling mode" [] ;;;
       ret false
     else
       logger WARNING "Failed to subscribe to events: {} - {}"
         [status response; body_text response] ;;;
       ret false)
    (fun e =>
       logger DEBUG "Error subscribing to events: {}" [AExn e] ;;;
       ret false).

(** *** process_message *)

(** [if isinstance(result, dict) and 'agent_id' not in result:
       result['agent_id'] = AGENT_ID] *)
Definition include_agent_id (result : pyval) : pyval :=
  match result with
  | PDict d =>
      if negb (Dict.contains d "agent_id")
      then PDict (Dict.set d "agent_id" (PStr (AGENT_ID E)))
      else result
  | _ => result
  end.

Definition interest_body (interest_score : float) : pyval :=
  PDict [("agent_id", PStr (AGENT_ID E));
         ("name", PStr (AGENT_NAME E));
         ("score", PFloat interest_score)].

Definition result_body (result : pyval) : pyval :=
  PDict [("agent_id", PStr (AGENT_ID E)); ("result", result)].

(** The body of the [try] block, lines 119 to 164. *)
Definition dispatch_body (message : pyval) : M unit :=
  agent <- new_agent ;;
  interest_score <- agent_calculate_interest agent message ;;
  id <- lift (py_getitem message "id") ;;
  logger INFO "Interest score for message {}: {}"
    [AVal id; AVal (PFloat interest_score)] ;;;
  id <- lift (py_getitem message "id") ;;
  interest_response <-
    requests_post (api_messages_interest id) (interest_body interest_score) ;;
  if PrimFloat.leb (Agent.classifier_threshold agent) interest_score then
    result <- agent_process_message agent message ;;
    if truthy result then
      let result := include_agent_id result in
      id <- lift (py_getitem message "id") ;;
      process_response <-
        requests_post (api_messages_process id) (result_body result) ;;
      if (status_code process_response =? 200)%Z then
        id <- lift (py_getitem message "id") ;;
        logger INFO "Successfully processed message {}" [AVal id]
      else
        logger WARNING "Error submitting processing result: {} - {}"
          [status process_response; body_text process_response]
    else
      id <- lift (py_getitem message "id") ;;
      logger INFO "Agent returned no result for message {}" [AVal id]
  else
    logger INFO "Interest score {} below threshold {}, skipping processing"
      [AVal (PFloat interest_score);
       AVal (PFloat (Agent.classifier_threshold agent))].

(** The [except Exception as e] clause, line 167. *)
Definition dispatch_handler (message : pyval) (e : exn) : M unit :=
  id <- lift (py_get message "id" (PStr "unknown")) ;;
  logger ERROR "Error processing message {}: {}" [AVal id; AExn e].

Definition process_message (message : pyval) : M unit :=
  try_except (dispatch_body message) (dispatch_handler message).

(** *** process_messages *)

Definition pending_params : pyval := PDict [("agent_id", PStr (AGENT_ID E))].

Definition process_messages : M unit :=
  try_except
    (response <- requests_get api_messages_pending pending_params ;;
     if (status_code response =? 200)%Z then
       messages <- lift (json response) ;;
       (if truthy messages then
          n <- lift (py_len messages) ;;
          logger INFO "Received {} messages to process" [AVal (PInt n)] ;;;
          items <- lift (py_iter messages) ;;
          for_each process_message items
        else ret tt) ;;;
       subscribed <- subscribe_to_events ;;
       ret tt
     else
       logger ERROR "Failed to get pending messages: {} - {}"
         [status response; body_text response])
    (fun e => logger ERROR "Error checking for messages: {}" [AExn e]).

(** *** main

    [while True] runs until a [KeyboardInterrupt] arrives from outside;
    [cycles] is the number of iterations completed before it does. *)

Fixpoint polling_loop (cycles : nat) : M unit :=
  match cycles with
  | O => ret tt
  | S n => process_messages ;;; sleep 5 ;;; polling_loop n
  end.

Definition main (cycles : nat) : M unit :=
  logger INFO "Starting agent container for {} (ID: {})"
    [AVal (PStr (AGENT_NAME E)); AVal (PStr (AGENT_ID E))] ;;;
  registered <- register_with_core_system ;;
  (if negb registered
   then logger WARNING "Continuing without registration..." []
   else ret tt) ;;;
  polling_loop cycles ;;;
  logger INFO "Shutting down agent container" [].

End Container.

(** ** Observations on traces *)

Definition is_new_agent (ev : event) : bool :=
  match ev with EvNew _ => true | _ => false end.

Definition is_process_call (ev : event) : bool :=
  match ev with EvProcess _ _ => true | _ => false end.

Definition is_interest_path (p : path) : bool :=
  match p with api_messages_interest _ => true | _ => false end.

Definition is_result_path (p : path) : bool :=
  match p with api_messages_process _ => true | _ => false end.

(** An interest submission that came back with a response, of any status. *)
Definition interest_answered (ev : event) : bool :=
  match ev with
  | EvHttp rq (inr _) => is_interest_path (target rq)
  | _ => false
  end.

Definition is_result_submission (ev : event) : bool :=
  match ev with
  | EvHttp rq _ => is_result_path (target rq)
  | _ => false
  end.

Definition is_subscribe_call (ev : event) : bool :=
  match ev with
  | EvHttp rq _ =>
      match target rq with api_agents_subscribe => true | _ => false end
  | _ => false
  end.

Definition is_fetch_call (ev : event) : bool :=
  match ev with
  | EvHttp rq _ =>
      match target rq with api_messages_pending => true | _ => false end
  | _ => false
  end.

(** A log entry at WARNING or ERROR level. *)
Definition is_alarm (ev : event) : bool :=
  match ev with
  | EvLog WARNING _ _ | EvLog ERROR _ _ => true
  | _ => false
  end.

Definition count (p : event -> bool) (t : trace) : nat :=
  List.length (filter p t).

Definition process_calls : trace -> nat := count is_process_call.
Definition subscribe_calls : trace -> nat := count is_subscribe_call.
Definition fetch_calls : trace -> nat := count is_fetch_call.
Definition dispatches : trace -> nat := count is_new_agent.

(** [process_messages] reaches [subscribe_to_events] exactly after these
    answers to the fetch: status 200 and a body that decodes to something
    falsy, or to a list of dicts. *)
Definition batch_completes (messages : pyval) : bool :=
  negb (truthy messages) ||
  match messages with
  | PList l => forallb is_dict l
  | _ => false
  end.

Definition fetch_reaches_subscribe (r : result response) : bool :=
  match r with
  | inr rsp =>
      (status_code rsp =? 200)%Z &&
      match json rsp with
      | inr messages => batch_completes messages
      | inl _ => false
      end
  | inl _ => false
  end.

(** ** Sample agents, services and messages *)

Module Samples.

Definition m1 : pyval := PDict [("id", PStr "m1"); ("priority", PFloat 0.75)].
Definition m2 : pyval := PDict [("id", PStr "m2"); ("priority", PFloat 0.25)].
Definition anonymous : pyval := PDict [("priority", PFloat 0.75)].
Definition unscored : pyval := PDict [("id", PStr "m0")].
Definition garbled : pyval := PStr "oops".

Definition priority (m : pyval) : result float :=
  match py_getitem m "priority" with
  | inr (PFloat x) => inr x
  | inr _ => inl (AgentError "priority is not a number")
  | inl e => inl e
  end.

(** Scores a message by its priority, threshold one half. *)
Definition summarizer : Agent.t :=
  Agent.mk priority 0.5%float
    (fun _ => inr (PDict [("summary", PStr "done")])).

Definition signer : Agent.t :=
  Agent.mk priority 0.5%float
    (fun _ => inr (PDict [("agent_id", PStr "someone-else");
                          ("summary", PStr "done")])).

Definition shouter : Agent.t :=
  Agent.mk priority 0.5%float (fun _ => inr (PStr "done")).

Definition ok (body : pyval) : result response :=
  inr (mkResponse 200 "OK" (inr body)).

Definition failure (code : Z) (reason : string) : result response :=
  inr (mkResponse code reason (inl JSONDecodeError)).

(** A service that hands out [batch] and has no subscription endpoint. *)
Definition service (batch : pyval) (h : trace) (rq : request)
  : result response :=
  match target rq with
  | api_messages_pending => ok batch
  | api_agents_subscribe => failure 404 "Not Found"
  | _ => ok (PDict [])
  end.

(** The same, with the interest endpoint unreachable. *)
Definition interest_unreachable (batch : pyval) (h : trace) (rq : request)
  : result response :=
  match target rq with
  | api_messages_interest _ => inl (RequestException "connection refused")
  | _ => service batch h rq
  end.

(** The same, with the interest endpoint answering 500. *)
Definition interest_rejected (batch : pyval) (h : trace) (rq : request)
  : result response :=
  match target rq with
  | api_messages_interest _ => failure 500 "Internal Server Error"
  | _ => service batch h rq
  end.

(** A service whose pending endpoint answers 500. *)
Definition fetch_rejected (h : trace) (rq : request) : result response :=
  match target rq with
  | api_messages_pending => failure 500 "Internal Server Error"
  | _ => service (PList []) h rq
  end.

Definition container (agent : Agent.t)
    (svc : trace -> request -> result response) : env :=
  mkEnv "a1" "Agent One" "http://core:8000" "c0ffee" (inr agent) svc.

Definition two_messages : env :=
  container summarizer (service (PList [m1; m2])).

Definition interest_down : env :=
  container summarizer (interest_unreachable (PList [m1])).

Definition interest_500 : env :=
  container summarizer (interest_rejected (PList [m1])).

Definition fetch_500 : env := container summarizer fetch_rejected.

Definition garbled_first : env :=
  container summarizer (service (PList [garbled; m1])).

Definition unscored_first : env :=
  container summarizer (service (PList [unscored; m1])).

Definition anonymous_first : env :=
  container summarizer (service (PList [anonymous; m1])).

Definition signed : env := container signer (service (PList [m1])).

Definition shouted : env := container shouter (service (PList [m1])).

End Samples.

(** ** Further observations on traces *)

Definition is_http (ev : event) : bool :=
  match ev with EvHttp _ _ => true | _ => false end.

(** An interest submission, answered or not. *)
Definition is_interest_submission (ev : event) : bool :=
  match ev with
  | EvHttp rq _ => is_interest_path (target rq)
  | _ => false
  end.

Definition is_register_call (ev : event) : bool :=
  match ev with
  | EvHttp rq _ =>
      match target rq with api_agents_register => true | _ => false end
  | _ => false
  end.

Definition is_sleep (ev : event) : bool :=
  match ev with EvSleep _ => true | _ => false end.

Definition is_scoring (ev : event) : bool :=
  match ev with EvInterest _ _ => true | _ => false end.

(** The answer is a response with status 200. *)
Definition answered_200 (r : result response) : bool :=
  match r with
  | inr rsp => (status_code rsp =? 200)%Z
  | inl _ => false
  end.

(** The answer is a response with a status other than 200 and 404. *)
Definition answered_unexpectedly (r : result response) : bool :=
  match r with
  | inr rsp =>
      negb (status_code rsp =? 200)%Z && negb (status_code rsp =? 404)%Z
  | inl _ => false
  end.

Definition is_log (ev : event) : bool :=
  match ev with EvLog _ _ _ => true | _ => false end.

(** The ERROR entry that a cycle writes when its fetch fails: the request
    raised, the status is not 200, or the body of a 200 does not decode. *)
Definition fetch_failure (answer : result response) : option event :=
  match answer with
  | inl e => Some (EvLog ERROR "Error checking for messages: {}" [AExn e])
  | inr rsp =>
      if (status_code rsp =? 200)%Z then
        match json rsp with
        | inl e =>
            Some (EvLog ERROR "Error checking for messages: {}" [AExn e])
        | inr _ => None
        end
      else
        Some (EvLog ERROR "Failed to get pending messages: {} - {}"
                [status rsp; body_text rsp])
  end.

(** The log entry of [register_with_core_system], lines 52 to 59. *)
Definition register_entry (answer : result response) : event :=
  match answer with
  | inr rsp =>
      if (status_code rsp =? 200)%Z then
        EvLog INFO "Agent registered successfully with core system" []
      else
        EvLog ERROR "Failed to register with core system: {} - {}"
          [status rsp; body_text rsp]
  | inl e => EvLog ERROR "Error registering with core system: {}" [AExn e]
  end.

(** The position of an event in the protocol of one dispatch: scoring (1),
    interest submission (2), processing (3), result submission (4); 0 for
    the events that are no step of the protocol. *)
Definition phase (ev : event) : nat :=
  match ev with
  | EvInterest _ _ => 1
  | EvProcess _ _ => 3
  | EvHttp rq _ =>
      match target rq with
      | api_messages_interest _ => 2
      | api_messages_process _ => 4
      | _ => 0
      end
  | _ => 0
  end.

(** How a dispatch closes after a result submission. *)
Definition closing_entry (id : pyval) (answer : result response) : event :=
  match answer with
  | inr rsp =>
      if (status_code rsp =? 200)%Z
      then EvLog INFO "Successfully processed message {}" [AVal id]
      else EvLog WARNING "Error submitting processing result: {} - {}"
             [status rsp; body_text rsp]
  | inl e => EvLog ERROR "Error processing message {}: {}" [AVal id; AExn e]
  end.

(** ** Start-up: the module-level code, lines 9 to 29

    Before anything else the module reads [config.yaml] for the name of the
    agent class and looks the class up in the module [agent].  Opening and
    parsing the file and importing the module are given by their outcomes;
    [print] lines are collected.  Python's [str] on a value that is not a
    string is a parameter. *)

Module Startup.

Inductive error : Type :=
| OSError (detail : string)        (* open('config.yaml') *)
| YAMLError (detail : string)      (* yaml.safe_load *)
| ImportError (detail : string)    (* import_module, from agent import *)
| Raised (e : exn).

Definition attempt (A : Type) : Type := (error + A)%type.

Inductive printed_arg : Type :=
| Shown (v : string)
| ShownError (e : error).

Definition printed : Type := (string * list printed_arg)%type.

Definition and_then {A B} (r : attempt A) (k : A -> attempt B) : attempt B :=
  match r with
  | inl e => inl e
  | inr a => k a
  end.

Definition of_result {A} (r : result A) : attempt A :=
  match r with
  | inl e => inl (Raised e)
  | inr a => inr a
  end.

(** Lines 10 to 13, the body of the first [try]. *)
Definition read_names (loaded : attempt pyval) : attempt (pyval * pyval) :=
  and_then loaded (fun config =>
  and_then (of_result (py_get config "agent" (PDict []))) (fun section =>
  and_then (of_result (py_get section "class_name" (PStr "Test")))
    (fun agent_class_name =>
  and_then (of_result (py_get config "agent" (PDict []))) (fun section' =>
  and_then (of_result (py_get section' "package_name" (PStr "test_agent")))
    (fun package_name =>
  inr (agent_class_name, package_name)))))).

(** Lines 9 to 17: [(agent_class_name, package_name)] and what is printed. *)
Definition load_config (loaded : attempt pyval)
  : (pyval * pyval) * list printed :=
  match read_names loaded with
  | inr names => (names, [])
  | inl e =>
      ((PStr "Test", PStr "test_agent"),
       [("Warning: Could not load config.yaml: {}", [ShownError e])])
  end.

Definition module_name : string := "agent".

Section ClassLookup.

Variable py_str : pyval -> string.

(** A class, as far as the container uses one: what calling it gives. *)
Variable class : Type.

(** [f"{agent_class_name}"]: a string is shown as it is. *)
Definition shown (agent_class_name : pyval) : string :=
  match agent_class_name with
  | PStr s => s
  | other => py_str other
  end.

(** [f"{agent_class_name}Agent"] *)
Definition class_attribute (agent_class_name : pyval) : string :=
  (shown agent_class_name ++ "Agent")%string.

Fixpoint getattr (attrs : list (string * class)) (name : string)
  : option class :=
  match attrs with
  | [] => None
  | (n, c) :: attrs' => if String.eqb n name then Some c else getattr attrs' name
  end.

(** Lines 20 to 29.  [imported] is the outcome of importing the module
    [agent], the same at both imports.  An exception of the fallback import
    is not caught: the container does not start. *)
Definition select_agent_class
    (agent_class_name : pyval) (imported : attempt (list (string * class)))
  : attempt class * list printed :=
  let wanted := class_attribute agent_class_name in
  let first :=
    and_then imported (fun agent_module =>
      match getattr agent_module wanted with
      | Some c => inr c
      | None => inl (Raised (AttributeError wanted))
      end) in
  match first with
  | inr c =>
      (inr c,
       [("Successfully imported {}Agent from {}",
         [Shown (shown agent_class_name); Shown module_name])])
  | inl e =>
      let fallback :=
        and_then imported (fun agent_module =>
          match getattr agent_module "BaseAgent" with
          | Some c => inr c
          | None => inl (ImportError "cannot import name 'BaseAgent'")
          end) in
      match fallback with
      | inr c =>
          (inr c, [("Warning: Using fallback BaseAgent: {}", [ShownError e])])
      | inl e' => (inl e', [])
      end
  end.

End ClassLookup.

End Startup.

(** ** More sample agents and services *)

Module Cases.

(** Scores like [Samples.summarizer], returns an empty dict. *)
Definition silent : Agent.t :=
  Agent.mk Samples.priority 0.5%float (fun _ => inr (PDict [])).

(** Scores like [Samples.summarizer], raises when asked to process. *)
Definition crashing : Agent.t :=
  Agent.mk Samples.priority 0.5%float
    (fun _ => inl (AgentError "model not loaded")).

(** A service whose result endpoint answers 503. *)
Definition result_rejected (batch : pyval) (h : trace) (rq : request)
  : result response :=
  match target rq with
  | api_messages_process _ => Samples.failure 503 "Service Unavailable"
  | _ => Samples.service batch h rq
  end.

(** A service that refuses registration and subscription with a 500. *)
Definition unfriendly (batch : pyval) (h : trace) (rq : request)
  : result response :=
  match target rq with
  | api_agents_register => Samples.failure 500 "Internal Server Error"
  | api_agents_subscribe => Samples.failure 500 "Internal Server Error"
  | _ => Samples.service batch h rq
  end.

Definition quiet : env :=
  Samples.container silent (Samples.service (PList [Samples.m1])).

Definition crash : env :=
  Samples.container crashing (Samples.service (PList [Samples.m1])).

Definition result_503 : env :=
  Samples.container Samples.summarizer (result_rejected (PList [Samples.m1])).

Definition unregistered : env :=
  Samples.container Samples.summarizer
    (unfriendly (PList [Samples.m1; Samples.m2])).

Definition nothing_pending : env :=
  Samples.container Samples.summarizer (Samples.service (PList [])).

Definition wrapped_batch : env :=
  Samples.container Samples.summarizer
    (Samples.service (PDict [("messages", PList [Samples.m1])])).

Definition unbuildable : env :=
  mkEnv "a1" "Agent One" "http://core:8000" "c0ffee"
    (inl (AgentError "no model")) (Samples.service (PList [Samples.m1])).

End Cases.

(** * Properties *)

(** ** Floating-point comparison

    [interest_score >= threshold] is [threshold <= interest_score]; a score
    strictly below the threshold fails it.  (So does a NaN on either side,
    which is neither below nor above.) *)



(** ** Dicts *)

Lemma dict_set_absent (d : Dict.t) (k : string) (v : pyval) :
  Dict.get d k = None -> Dict.set d k v = d ++ [(k, v)].
Proof.
  induction d as [|[k' v'] d IH]; simpl; intros Hget.
  - reflexivity.
  - destruct (String.eqb k' k).
    + discriminate.
    + now rewrite IH.
Qed.

Lemma dict_get_app_other (d : Dict.t) (k k' : string) (v : pyval) :
  k' <> k -> Dict.get (d ++ [(k, v)]) k' = Dict.get d k'.
Proof.
  intros Hne. induction d as [|[k0 v0] d IH]; simpl.
  - destruct (String.eqb_spec k k'); congruence.
  - now rewrite IH.
Qed.

Lemma dict_get_app_new (d : Dict.t) (k : string) (v : pyval) :
  Dict.get d k = None -> Dict.get (d ++ [(k, v)]) k = Some v.
Proof.
  induction d as [|[k0 v0] d IH]; simpl.
  - now rewrite String.eqb_refl.
  - destruct (String.eqb k0 k); [discriminate | exact IH].
Qed.

(** ** Running a dispatch

    [run_dispatch] unfolds one call of [process_message] and splits on
    every answer of a collaborator that the code branches on. *)

Ltac unfold_dispatch :=
  unfold events, outcome, process_message, try_except, dispatch_body,
    dispatch_handler, bind, new_agent, agent_calculate_interest,
    agent_process_message, lift, logger, emit, requests_post, requests_call,
    ret in *.

Ltac flatten_history :=
  repeat rewrite app_nil_r in *; repeat rewrite <- app_assoc in *;
  simpl in *.

Ltac case_step :=
  match goal with
  | |- context [AgentClass ?E] => destruct (AgentClass E) eqn:?
  | |- context [Agent.calculate_interest ?a ?m] =>
      destruct (Agent.calculate_interest a m) eqn:?
  | |- context [Dict.get ?d "id"] => destruct (Dict.get d "id") eqn:?
  | |- context [net ?E ?h ?rq] => destruct (net E h rq) eqn:?
  | |- context [PrimFloat.leb ?a ?b] => destruct (PrimFloat.leb a b) eqn:?
  | |- context [Agent.process_message ?a ?m] =>
      destruct (Agent.process_message a m) eqn:?
  | |- context [truthy ?v] => destruct (truthy v) eqn:?
  | |- context [Z.eqb ?a ?b] => destruct (Z.eqb a b) eqn:?
  end; simpl in *.

Ltac run_dispatch message :=
  unfold_dispatch; destruct message; simpl in *; repeat case_step.

Lemma dispatch_of_mapping_returns (E : env) (d : Dict.t) (h : trace) :
  outcome (process_message E (PDict d)) h = inr tt.
Proof.
  remember (PDict d) as message eqn:Hm.
  run_dispatch message; try discriminate; reflexivity.
Qed.

Lemma dispatch_of_non_mapping_raises (E : env) (message : pyval) (h : trace) :
  is_dict message = false ->
  outcome (process_message E message) h = inl (AttributeError "get").
Proof.
  intros Hm. run_dispatch message; try discriminate; reflexivity.
Qed.

Lemma dispatch_calls_constructor_once (E : env) (message : pyval) (h : trace) :
  dispatches (events (process_message E message) h) = 1.
Proof. run_dispatch message; reflexivity. Qed.

Lemma dispatch_never_subscribes (E : env) (message : pyval) (h : trace) :
  subscribe_calls (events (process_message E message) h) = 0.
Proof. run_dispatch message; reflexivity. Qed.

Lemma dispatch_never_fetches (E : env) (message : pyval) (h : trace) :
  fetch_calls (events (process_message E message) h) = 0.
Proof. run_dispatch message; reflexivity. Qed.

(** ** The threshold gate *)




(** ** Interest submission *)

(** C2, as amended.  Once the agent is built, the score is computed and the
    message has an [id], the interest submission is made, whatever the
    score.  Its response is never looked at: whatever the status, nothing
    is logged about it and the dispatch goes on to the threshold test, and
    to the agent's [process_message] when [score >= threshold].  When the
    submission raises instead, the handler of the dispatch logs the
    exception at ERROR level and the dispatch ends there. *)
Theorem interest_submitted_whatever_the_score
    (E : env) (d : Dict.t) (h : trace) (agent : Agent.t) (score : float)
    (id : pyval) :
  AgentClass E = inr agent ->
  Agent.calculate_interest agent (PDict d) = inr score ->
  Dict.get d "id" = Some id ->
  let message := PDict d in
  let threshold := Agent.classifier_threshold agent in
  let opening :=
    [EvNew true;
     EvInterest message (inr score);
     EvLog INFO "Interest score for message {}: {}"
       [AVal id; AVal (PFloat score)]] in
  let rq := mkRequest POST (CORE_API_URL E) (api_messages_interest id)
              (interest_body E score) in
  let answer := net E (h ++ opening) rq in
  exists rest,
    events (process_message E message) h = opening ++ EvHttp rq answer :: rest
    /\ (forall rsp, answer = inr rsp ->
        if PrimFloat.leb threshold score
        then exists rest',
            rest = EvProcess message (Agent.process_message agent message)
                     :: rest'
        else rest =
             [EvLog INFO
                "Interest score {} below threshold {}, skipping processing"
                [AVal (PFloat score); AVal (PFloat threshold)]])
    /\ (forall e, answer = inl e ->
        rest = [EvLog ERROR "Error processing message {}: {}"
                  [AVal id; AExn e]]).
Proof.
  intros Hag Hsc Hid message threshold opening rq answer.
  subst message threshold opening rq answer.
  unfold_dispatch. rewrite Hag. simpl. rewrite Hsc. simpl. rewrite Hid.
  simpl. flatten_history.
  repeat case_step; eexists; (split; [reflexivity|]);
    split; intros; try discriminate;
    repeat match goal with
           | H : inr _ = inr _ |- _ => injection H as H; subst
           | H : inl _ = inl _ |- _ => injection H as H; subst
           end;
    try reflexivity; eexists; reflexivity.
Qed.

Lemma interest_submitted_whatever_the_score_witness :
  exists rest,
    events (process_message Samples.interest_500 Samples.m1) [] =
      [EvNew true;
       EvInterest Samples.m1 (inr 0.75%float);
       EvLog INFO "Interest score for message {}: {}"
         [AVal (PStr "m1"); AVal (PFloat 0.75)]]
      ++ EvHttp
           (mkRequest POST "http://core:8000"
              (api_messages_interest (PStr "m1"))
              (interest_body Samples.interest_500 0.75))
           (Samples.failure 500 "Internal Server Error")
      :: rest
    /\ (exists rest',
         rest = EvProcess Samples.m1
                  (inr (PDict [("summary", PStr "done")])) :: rest').
Proof.
  destruct (interest_submitted_whatever_the_score Samples.interest_500
              [("id", PStr "m1"); ("priority", PFloat 0.75)] []
              Samples.summarizer 0.75%float (PStr "m1")
              eq_refl eq_refl eq_refl) as [rest [Hev [Hok _]]].
  exists rest. split.
  - exact Hev.
  - exact (Hok _ eq_refl).
Defined.

(** C2 as stated fails on both kinds of failure.  A 500 from the interest
    endpoint leaves no entry about it in the log, at any level; an
    unreachable interest endpoint is logged, but the dispatch ends without
    calling the agent's [process_message], although 0.75 reaches the
    threshold 0.5. *)
Lemma interest_failure_unlogged_or_fatal :
  events (process_message Samples.interest_500 Samples.m1) [] =
    [EvNew true;
     EvInterest Samples.m1 (inr 0.75%float);
     EvLog INFO "Interest score for message {}: {}"
       [AVal (PStr "m1"); AVal (PFloat 0.75)];
     EvHttp
       (mkRequest POST "http://core:8000"
          (api_messages_interest (PStr "m1"))
          (interest_body Samples.interest_500 0.75))
       (Samples.failure 500 "Internal Server Error");
     EvProcess Samples.m1 (inr (PDict [("summary", PStr "done")]));
     EvHttp
       (mkRequest POST "http://core:8000"
          (api_messages_process (PStr "m1"))
          (result_body Samples.interest_500
             (PDict [("summary", PStr "done"); ("agent_id", PStr "a1")])))
       (Samples.ok (PDict []));
     EvLog INFO "Successfully processed message {}" [AVal (PStr "m1")]]
  /\ PrimFloat.leb (Agent.classifier_threshold Samples.summarizer) 0.75 = true
  /\ events (process_message Samples.interest_down Samples.m1) [] =
       [EvNew true;
        EvInterest Samples.m1 (inr 0.75%float);
        EvLog INFO "Interest score for message {}: {}"
          [AVal (PStr "m1"); AVal (PFloat 0.75)];
        EvHttp
          (mkRequest POST "http://core:8000"
             (api_messages_interest (PStr "m1"))
             (interest_body Samples.interest_down 0.75))
          (inl (RequestException "connection refused"));
        EvLog ERROR "Error processing message {}: {}"
          [AVal (PStr "m1"); AExn (RequestException "connection refused")]].
Proof. repeat split; reflexivity. Qed.

(** ** Sequencing and loops *)

#[local] Arguments process_message : simpl never.
#[local] Arguments subscribe_to_events : simpl never.
#[local] Arguments process_messages : simpl never.

Lemma run_pair {A} (m : M A) (h : trace) : m h = (outcome m h, events m h).
Proof. unfold outcome, events. now destruct (m h). Qed.

Lemma bind_raises {A B} (m : M A) (k : A -> M B) (h : trace) (e : exn) :
  outcome m h = inl e ->
  bind m k h = (inl e, events m h).
Proof.
  unfold bind. rewrite (run_pair m h). simpl. now intros ->.
Qed.

Lemma bind_returns {A B} (m : M A) (k : A -> M B) (h : trace) (a : A) :
  outcome m h = inr a ->
  bind m k h =
    (outcome (k a) (h ++ events m h),
     events m h ++ events (k a) (h ++ events m h)).
Proof.
  unfold bind. rewrite (run_pair m h). simpl. intros ->.
  now rewrite (run_pair (k a) _).
Qed.

Lemma count_app (p : event -> bool) (s t : trace) :
  count p (s ++ t) = count p s + count p t.
Proof. unfold count. now rewrite filter_app, length_app. Qed.

Lemma count_cons (p : event -> bool) (ev : event) (t : trace) :
  count p (ev :: t) = (if p ev then 1 else 0) + count p t.
Proof. unfold count. simpl. now destruct (p ev). Qed.

Section Batch.

Variable E : env.

Let dispatch_all := for_each (process_message E).

Lemma batch_cons (message : pyval) (rest : list pyval) (h : trace) :
  dispatch_all (message :: rest) h =
    bind (process_message E message) (fun _ => dispatch_all rest) h.
Proof. reflexivity. Qed.

Lemma batch_of_mappings_returns (l : list pyval) :
  forallb is_dict l = true ->
  forall h, outcome (dispatch_all l) h = inr tt.
Proof.
  induction l as [|m l IH]; intros Hall h.
  - reflexivity.
  - simpl in Hall. apply andb_prop in Hall as [Hm Hl].
    destruct m; try discriminate.
    unfold outcome. rewrite batch_cons.
    rewrite (bind_returns _ _ _ tt (dispatch_of_mapping_returns E d h)).
    simpl. apply (IH Hl).
Qed.

Lemma batch_app (pre post : list pyval) (h : trace) :
  forallb is_dict pre = true ->
  dispatch_all (pre ++ post) h =
    (outcome (dispatch_all post) (h ++ events (dispatch_all pre) h),
     events (dispatch_all pre) h
       ++ events (dispatch_all post) (h ++ events (dispatch_all pre) h)).
Proof.
  revert h. induction pre as [|m pre IH]; intros h Hall.
  - change (events (dispatch_all []) h) with (@nil event).
    rewrite app_nil_r. simpl. apply run_pair.
  - simpl in Hall. apply andb_prop in Hall as [Hm Hpre].
    destruct m; try discriminate.
    assert (Hok := dispatch_of_mapping_returns E d h).
    set (first := events (process_message E (PDict d)) h).
    assert (Hev : events (dispatch_all (PDict d :: pre)) h =
                  first ++ events (dispatch_all pre) (h ++ first)).
    { unfold events at 1.
      now rewrite batch_cons, (bind_returns _ _ _ tt Hok). }
    rewrite Hev.
    change ((PDict d :: pre) ++ post) with (PDict d :: (pre ++ post)).
    rewrite batch_cons, (bind_returns _ _ _ tt Hok). fold first.
    unfold outcome at 1, events at 1.
    rewrite (IH (h ++ first) Hpre). simpl.
    now rewrite <- !app_assoc.
Qed.

Lemma batch_stops_at_non_mapping
    (bad : pyval) (post : list pyval) (h : trace) :
  is_dict bad = false ->
  dispatch_all (bad :: post) h =
    (inl (AttributeError "get"), events (process_message E bad) h).
Proof.
  intros Hbad. rewrite batch_cons.
  apply bind_raises, dispatch_of_non_mapping_raises, Hbad.
Qed.

Lemma batch_with_non_mapping_raises (l : list pyval) :
  forallb is_dict l = false ->
  forall h, outcome (dispatch_all l) h = inl (AttributeError "get").
Proof.
  induction l as [|m l IH]; intros Hall h.
  - discriminate.
  - simpl in Hall. destruct (is_dict m) eqn:Hm.
    + destruct m; try discriminate.
      unfold outcome. rewrite batch_cons.
      rewrite (bind_returns _ _ _ tt (dispatch_of_mapping_returns E d h)).
      simpl. apply (IH Hall).
    + unfold outcome. now rewrite batch_stops_at_non_mapping.
Qed.

Lemma batch_never_subscribes (l : list pyval) (h : trace) :
  subscribe_calls (events (dispatch_all l) h) = 0.
Proof.
  revert h. induction l as [|m l IH]; intros h.
  - reflexivity.
  - unfold events. rewrite batch_cons.
    destruct (outcome (process_message E m) h) as [e|[]] eqn:Hout.
    + rewrite (bind_raises _ _ _ _ Hout). simpl.
      apply dispatch_never_subscribes.
    + rewrite (bind_returns _ _ _ _ Hout). simpl.
      unfold subscribe_calls in *. rewrite count_app.
      rewrite (dispatch_never_subscribes E m h : count _ _ = 0).
      apply IH.
Qed.

Lemma batch_never_fetches (l : list pyval) (h : trace) :
  fetch_calls (events (dispatch_all l) h) = 0.
Proof.
  revert h. induction l as [|m l IH]; intros h.
  - reflexivity.
  - unfold events. rewrite batch_cons.
    destruct (outcome (process_message E m) h) as [e|[]] eqn:Hout.
    + rewrite (bind_raises _ _ _ _ Hout). simpl.
      apply dispatch_never_fetches.
    + rewrite (bind_returns _ _ _ _ Hout). simpl.
      unfold fetch_calls in *. rewrite count_app.
      rewrite (dispatch_never_fetches E m h : count _ _ = 0).
      apply IH.
Qed.

Lemma batch_of_mappings_dispatches_all (l : list pyval) :
  forallb is_dict l = true ->
  forall h, dispatches (events (dispatch_all l) h) = List.length l.
Proof.
  induction l as [|m l IH]; intros Hall h.
  - reflexivity.
  - simpl in Hall. apply andb_prop in Hall as [Hm Hl].
    destruct m; try discriminate.
    unfold events. rewrite batch_cons.
    rewrite (bind_returns _ _ _ tt (dispatch_of_mapping_returns E d h)).
    simpl. unfold dispatches in *. rewrite count_app.
    rewrite (dispatch_calls_constructor_once E (PDict d) h : count _ _ = 1).
    now rewrite (IH Hl).
Qed.

End Batch.

(** ** Subscription *)

Section Subscription.

Variable E : env.

Let subscribe_rq : request :=
  mkRequest POST (CORE_API_URL E) api_agents_subscribe (subscribe_request E).

Lemma subscribe_run (h : trace) :
  subscribe_to_events E h =
    match net E h subscribe_rq with
    | inr rsp =>
        if (status_code rsp =? 200)%Z then
          (inr true,
           [EvHttp subscribe_rq (inr rsp);
            EvLog INFO "Successfully subscribed to events" []])
        else if (status_code rsp =? 404)%Z then
          (inr false,
           [EvHttp subscribe_rq (inr rsp);
            EvLog DEBUG
              "Event subscription not implemented yet, using polling mode" []])
        else
          (inr false,
           [EvHttp subscribe_rq (inr rsp);
            EvLog WARNING "Failed to subscribe to events: {} - {}"
              [status rsp; body_text rsp]])
    | inl e =>
        (inr false,
         [EvHttp subscribe_rq (inl e);
          EvLog DEBUG "Error subscribing to events: {}" [AExn e]])
    end.
Proof.
  unfold subscribe_to_events, try_except, bind, requests_post, requests_call,
    logger, emit, ret. fold subscribe_rq.
  destruct (net E h subscribe_rq) as [e|rsp]; simpl; [reflexivity|].
  destruct (status_code rsp =? 200)%Z; simpl; [reflexivity|].
  destruct (status_code rsp =? 404)%Z; reflexivity.
Qed.

Lemma subscribe_never_raises (h : trace) :
  exists b, outcome (subscribe_to_events E) h = inr b.
Proof.
  unfold outcome. rewrite subscribe_run.
  destruct (net E h subscribe_rq) as [e|rsp]; simpl; eauto.
  destruct (status_code rsp =? 200)%Z; simpl; eauto.
  destruct (status_code rsp =? 404)%Z; simpl; eauto.
Qed.

Lemma subscribe_calls_once (h : trace) :
  subscribe_calls (events (subscribe_to_events E) h) = 1.
Proof.
  unfold events. rewrite subscribe_run.
  destruct (net E h subscribe_rq) as [e|rsp]; simpl; [reflexivity|].
  destruct (status_code rsp =? 200)%Z; simpl; [reflexivity|].
  destruct (status_code rsp =? 404)%Z; reflexivity.
Qed.

Lemma subscribe_never_fetches (h : trace) :
  fetch_calls (events (subscribe_to_events E) h) = 0.
Proof.
  unfold events. rewrite subscribe_run.
  destruct (net E h subscribe_rq) as [e|rsp]; simpl; [reflexivity|].
  destruct (status_code rsp =? 200)%Z; simpl; [reflexivity|].
  destruct (status_code rsp =? 404)%Z; reflexivity.
Qed.

(** A subscription attempt is one request and one log entry. *)
Lemma subscribe_shape (h : trace) :
  exists entry,
    events (subscribe_to_events E) h =
      [EvHttp subscribe_rq (net E h subscribe_rq); entry]
    /\ is_log entry = true.
Proof.
  unfold events. rewrite subscribe_run. fold subscribe_rq.
  destruct (net E h subscribe_rq) as [e|rsp]; simpl; [eauto|].
  destruct (status_code rsp =? 200)%Z; simpl; [eauto|].
  destruct (status_code rsp =? 404)%Z; simpl; eauto.
Qed.

End Subscription.

(** ** One polling cycle *)

Section Poll.

Variable E : env.

Let fetch_rq : request :=
  mkRequest GET (CORE_API_URL E) api_messages_pending (pending_params E).

Let checking_failed (e : exn) : event :=
  EvLog ERROR "Error checking for messages: {}" [AExn e].

Let received (n : Z) : event :=
  EvLog INFO "Received {} messages to process" [AVal (PInt n)].

(** The fetch raised, or its body did not decode. *)
Lemma poll_fetch_raises (h : trace) (e : exn) :
  net E h fetch_rq = inl e ->
  process_messages E h =
    (inr tt, [EvHttp fetch_rq (inl e); checking_failed e]).
Proof.
  intros Hnet.
  unfold process_messages, try_except, bind, requests_get, requests_call.
  fold fetch_rq. rewrite Hnet. reflexivity.
Qed.

Lemma poll_fetch_rejected (h : trace) (rsp : response) :
  net E h fetch_rq = inr rsp ->
  (status_code rsp =? 200)%Z = false ->
  process_messages E h =
    (inr tt,
     [EvHttp fetch_rq (inr rsp);
      EvLog ERROR "Failed to get pending messages: {} - {}"
        [status rsp; body_text rsp]]).
Proof.
  intros Hnet Hst.
  unfold process_messages, try_except, bind, requests_get, requests_call.
  fold fetch_rq. rewrite Hnet. simpl. rewrite Hst. reflexivity.
Qed.

Lemma poll_body_undecodable (h : trace) (rsp : response) (e : exn) :
  net E h fetch_rq = inr rsp ->
  (status_code rsp =? 200)%Z = true ->
  json rsp = inl e ->
  process_messages E h =
    (inr tt, [EvHttp fetch_rq (inr rsp); checking_failed e]).
Proof.
  intros Hnet Hst Hjs.
  unfold process_messages, try_except, bind, requests_get, requests_call,
    lift. fold fetch_rq. rewrite Hnet. simpl. rewrite Hst, Hjs. reflexivity.
Qed.

Lemma poll_nothing_pending (h : trace) (rsp : response) (messages : pyval) :
  net E h fetch_rq = inr rsp ->
  (status_code rsp =? 200)%Z = true ->
  json rsp = inr messages ->
  truthy messages = false ->
  process_messages E h =
    (inr tt,
     EvHttp fetch_rq (inr rsp)
       :: events (subscribe_to_events E) (h ++ [EvHttp fetch_rq (inr rsp)])).
Proof.
  intros Hnet Hst Hjs Hfalsy.
  destruct (subscribe_never_raises E (h ++ [EvHttp fetch_rq (inr rsp)]))
    as [b Hb].
  unfold process_messages, try_except, bind, requests_get, requests_call,
    lift, ret. fold fetch_rq. rewrite Hnet. simpl. rewrite Hst, Hjs. simpl.
  rewrite Hfalsy. simpl. rewrite !app_nil_r.
  rewrite (run_pair (subscribe_to_events E) _), Hb. simpl.
  rewrite !app_nil_r. reflexivity.
Qed.

(** The fetched body is truthy but has no length. *)
Lemma poll_not_sized (h : trace) (rsp : response) (messages : pyval) (e : exn) :
  net E h fetch_rq = inr rsp ->
  (status_code rsp =? 200)%Z = true ->
  json rsp = inr messages ->
  truthy messages = true ->
  py_len messages = inl e ->
  process_messages E h =
    (inr tt, [EvHttp fetch_rq (inr rsp); checking_failed e]).
Proof.
  intros Hnet Hst Hjs Htruthy Hlen.
  unfold process_messages, try_except, bind, requests_get, requests_call,
    lift, ret, logger, emit. fold fetch_rq. rewrite Hnet. simpl.
  rewrite Hst, Hjs. simpl. rewrite Htruthy. simpl. rewrite Hlen. reflexivity.
Qed.

(** The fetched body is truthy and can be iterated: its items are
    dispatched in order; the subscription follows if the loop over the
    batch completes, and the handler of [process_messages] logs the
    exception if it does not. *)
Lemma poll_batch
    (h : trace) (rsp : response) (messages : pyval) (n : Z)
    (items : list pyval) :
  net E h fetch_rq = inr rsp ->
  (status_code rsp =? 200)%Z = true ->
  json rsp = inr messages ->
  truthy messages = true ->
  py_len messages = inr n ->
  py_iter messages = inr items ->
  let opening := [EvHttp fetch_rq (inr rsp); received n] in
  let batch := events (for_each (process_message E) items) (h ++ opening) in
  process_messages E h =
    (inr tt,
     opening ++ batch ++
       match outcome (for_each (process_message E) items) (h ++ opening) with
       | inr _ => events (subscribe_to_events E) (h ++ opening ++ batch)
       | inl e => [checking_failed e]
       end).
Proof.
  intros Hnet Hst Hjs Htruthy Hlen Hiter opening batch. subst opening batch.
  unfold process_messages, try_except, bind, requests_get, requests_call,
    lift, ret, logger, emit. fold fetch_rq. rewrite Hnet. simpl.
  rewrite Hst, Hjs. simpl. rewrite Htruthy. simpl. rewrite Hlen. simpl.
  rewrite Hiter. simpl.
  rewrite !app_nil_r, <- !app_assoc. simpl. fold (received n).
  set (h1 := h ++ _).
  rewrite (run_pair (for_each (process_message E) items) h1).
  destruct (outcome (for_each (process_message E) items) h1) as [e|[]]; simpl.
  - reflexivity.
  - rewrite <- app_assoc. simpl.
    set (h2 := h ++ _ :: _ :: _).
    destruct (subscribe_never_raises E h2) as [b Hb].
    rewrite (run_pair (subscribe_to_events E) h2), Hb. simpl.
    rewrite app_nil_r. reflexivity.
Qed.

(** A truthy body that can be iterated and is not a list of dicts starts
    with an item that is not a dict. *)
Lemma iterable_not_batch (messages : pyval) (n : Z) (items : list pyval) :
  truthy messages = true ->
  py_iter messages = inr items ->
  batch_completes messages = forallb is_dict items.
Proof.
  unfold batch_completes. intros Htruthy Hiter. rewrite Htruthy. simpl.
  destruct messages; simpl in *; try discriminate;
    injection Hiter as <-.
  - destruct s; [discriminate | reflexivity].
  - reflexivity.
  - destruct d; [discriminate | reflexivity].
Qed.

Lemma sized_iff_iterable (messages : pyval) :
  match py_len messages, py_iter messages with
  | inr _, inr _ => True
  | inl _, inl _ => batch_completes messages = negb (truthy messages)
  | _, _ => False
  end.
Proof.
  destruct messages; simpl; try exact I;
    unfold batch_completes; now rewrite orb_false_r.
Qed.

(** Every cycle returns to the loop: no exception leaves [process_messages]. *)
Lemma poll_never_raises (h : trace) :
  outcome (process_messages E) h = inr tt.
Proof.
  unfold outcome.
  destruct (net E h fetch_rq) as [e|rsp] eqn:Hnet.
  { now rewrite (poll_fetch_raises h e Hnet). }
  destruct (status_code rsp =? 200)%Z eqn:Hst.
  2: { now rewrite (poll_fetch_rejected h rsp Hnet Hst). }
  destruct (json rsp) as [e|messages] eqn:Hjs.
  { now rewrite (poll_body_undecodable h rsp e Hnet Hst Hjs). }
  destruct (truthy messages) eqn:Htruthy.
  2: { now rewrite (poll_nothing_pending h rsp messages Hnet Hst Hjs Htruthy). }
  assert (Hsz := sized_iff_iterable messages).
  destruct (py_len messages) as [e|n] eqn:Hlen.
  { now rewrite (poll_not_sized h rsp messages e Hnet Hst Hjs Htruthy Hlen). }
  destruct (py_iter messages) as [e|items] eqn:Hiter; [contradiction|].
  now rewrite (poll_batch h rsp messages n items Hnet Hst Hjs Htruthy Hlen Hiter).
Qed.

(** Exactly one fetch per cycle. *)
Lemma poll_fetches_once (h : trace) :
  fetch_calls (events (process_messages E) h) = 1.
Proof.
  unfold events.
  destruct (net E h fetch_rq) as [e|rsp] eqn:Hnet.
  { now rewrite (poll_fetch_raises h e Hnet). }
  destruct (status_code rsp =? 200)%Z eqn:Hst.
  2: { now rewrite (poll_fetch_rejected h rsp Hnet Hst). }
  destruct (json rsp) as [e|messages] eqn:Hjs.
  { now rewrite (poll_body_undecodable h rsp e Hnet Hst Hjs). }
  destruct (truthy messages) eqn:Htruthy.
  2: { rewrite (poll_nothing_pending h rsp messages Hnet Hst Hjs Htruthy).
       simpl snd. unfold fetch_calls. rewrite count_cons.
       now rewrite (subscribe_never_fetches E _ : count _ _ = 0). }
  assert (Hsz := sized_iff_iterable messages).
  destruct (py_len messages) as [e|n] eqn:Hlen.
  { now rewrite (poll_not_sized h rsp messages e Hnet Hst Hjs Htruthy Hlen). }
  destruct (py_iter messages) as [e|items] eqn:Hiter; [contradiction|].
  rewrite (poll_batch h rsp messages n items Hnet Hst Hjs Htruthy Hlen Hiter).
  simpl snd. unfold fetch_calls. rewrite !count_cons, count_app.
  rewrite (batch_never_fetches E items _ : count _ _ = 0).
  destruct (outcome _ _) as [e|[]].
  - reflexivity.
  - now rewrite (subscribe_never_fetches E _ : count _ _ = 0).
Qed.

End Poll.

(** ** The polling loop *)

Section Loop.

Variable E : env.

Lemma loop_step (n : nat) (h : trace) :
  let cycle := events (process_messages E) h ++ [EvSleep 5] in
  polling_loop E (S n) h =
    (outcome (polling_loop E n) (h ++ cycle),
     cycle ++ events (polling_loop E n) (h ++ cycle)).
Proof.
  simpl. unfold sleep, emit.
  rewrite (bind_returns _ _ _ tt (poll_never_raises E h)).
  set (h1 := h ++ events (process_messages E) h).
  assert (Hs : bind (fun _ : trace => (inr tt, [EvSleep 5]))
                 (fun _ : unit => polling_loop E n) h1 =
               (outcome (polling_loop E n) (h1 ++ [EvSleep 5]),
                [EvSleep 5] ++ events (polling_loop E n) (h1 ++ [EvSleep 5])))
    by (unfold bind; simpl; now rewrite (run_pair (polling_loop E n) _)).
  unfold outcome, events in *. rewrite Hs. subst h1. simpl.
  now rewrite <- !app_assoc.
Qed.

Lemma loop_never_raises (n : nat) :
  forall h, outcome (polling_loop E n) h = inr tt.
Proof.
  induction n as [|n IH]; intros h.
  - reflexivity.
  - unfold outcome. rewrite loop_step. apply IH.
Qed.

Lemma loop_fetches_every_cycle (n : nat) :
  forall h, fetch_calls (events (polling_loop E n) h) = n.
Proof.
  induction n as [|n IH]; intros h.
  - reflexivity.
  - unfold events. rewrite loop_step. simpl snd.
    unfold fetch_calls in *. rewrite !count_app, IH.
    rewrite (poll_fetches_once E h : count _ _ = 1). reflexivity.
Qed.

End Loop.

(** ** Subscription attempts *)

Lemma poll_subscribe_calls (E : env) (h : trace) :
  let fetch_rq :=
    mkRequest GET (CORE_API_URL E) api_messages_pending (pending_params E) in
  subscribe_calls (events (process_messages E) h) =
    if fetch_reaches_subscribe (net E h fetch_rq) then 1 else 0.
Proof.
  intros fetch_rq. unfold events, fetch_reaches_subscribe.
  destruct (net E h fetch_rq) as [e|rsp] eqn:Hnet.
  { now rewrite (poll_fetch_raises E h e Hnet). }
  destruct (status_code rsp =? 200)%Z eqn:Hst.
  2: { now rewrite (poll_fetch_rejected E h rsp Hnet Hst). }
  destruct (json rsp) as [e|messages] eqn:Hjs.
  { now rewrite (poll_body_undecodable E h rsp e Hnet Hst Hjs). }
  simpl andb.
  destruct (truthy messages) eqn:Htruthy.
  2: { rewrite (poll_nothing_pending E h rsp messages Hnet Hst Hjs Htruthy).
       simpl snd. unfold batch_completes. rewrite Htruthy. simpl.
       unfold subscribe_calls. rewrite count_cons.
       now rewrite (subscribe_calls_once E _ : count _ _ = 1). }
  assert (Hsz := sized_iff_iterable messages).
  destruct (py_len messages) as [e|n] eqn:Hlen.
  { rewrite (poll_not_sized E h rsp messages e Hnet Hst Hjs Htruthy Hlen).
    destruct (py_iter messages); [|contradiction].
    now rewrite Hsz, Htruthy. }
  destruct (py_iter messages) as [e|items] eqn:Hiter; [contradiction|].
  rewrite (poll_batch E h rsp messages n items Hnet Hst Hjs Htruthy Hlen Hiter).
  rewrite (iterable_not_batch messages n items Htruthy Hiter).
  simpl snd. unfold subscribe_calls. rewrite !count_cons, count_app.
  rewrite (batch_never_subscribes E items _ : count _ _ = 0).
  destruct (forallb is_dict items) eqn:Hall.
  - rewrite (batch_of_mappings_returns E items Hall).
    now rewrite (subscribe_calls_once E _ : count _ _ = 1).
  - now rewrite (batch_with_non_mapping_raises E items Hall).
Qed.



(** C8.  When the subscribe endpoint answers 404, [subscribe_to_events]
    logs one entry at DEBUG level, nothing at WARNING or ERROR level, and
    returns [False].  Polling goes on: no exception leaves the loop, and
    every one of its cycles fetches the pending messages. *)
Theorem subscribe_404_is_quiet (E : env) (h : trace) (rsp : response) :
  let subscribe_rq :=
    mkRequest POST (CORE_API_URL E) api_agents_subscribe
      (subscribe_request E) in
  net E h subscribe_rq = inr rsp ->
  status_code rsp = 404%Z ->
  subscribe_to_events E h =
    (inr false,
     [EvHttp subscribe_rq (inr rsp);
      EvLog DEBUG
        "Event subscription not implemented yet, using polling mode" []])
  /\ existsb is_alarm (events (subscribe_to_events E) h) = false
  /\ forall (cycles : nat) (h' : trace),
      outcome (polling_loop E cycles) h' = inr tt
      /\ fetch_calls (events (polling_loop E cycles) h') = cycles.
Proof.
  intros subscribe_rq Hnet H404.
  assert (Hrun : subscribe_to_events E h =
                 (inr false,
                  [EvHttp subscribe_rq (inr rsp);
                   EvLog DEBUG
                     "Event subscription not implemented yet, using polling mode"
                     []])).
  { rewrite subscribe_run. fold subscribe_rq. rewrite Hnet, H404.
    reflexivity. }
  split; [exact Hrun|]. split.
  - unfold events. rewrite Hrun. reflexivity.
  - intros cycles h'. split.
    + apply loop_never_raises.
    + apply loop_fetches_every_cycle.
Qed.

Lemma subscribe_404_is_quiet_witness :
  subscribe_to_events Samples.two_messages [] =
    (inr false,
     [EvHttp
        (mkRequest POST "http://core:8000" api_agents_subscribe
           (subscribe_request Samples.two_messages))
        (Samples.failure 404 "Not Found");
      EvLog DEBUG
        "Event subscription not implemented yet, using polling mode" []])
  /\ existsb is_alarm
       (events (subscribe_to_events Samples.two_messages) []) = false
  /\ forall (cycles : nat) (h' : trace),
      outcome (polling_loop Samples.two_messages cycles) h' = inr tt
      /\ fetch_calls (events (polling_loop Samples.two_messages cycles) h')
         = cycles.
Proof.
  apply (subscribe_404_is_quiet Samples.two_messages []
           (mkResponse 404 "Not Found" (inl JSONDecodeError)));
    reflexivity.
Defined.

(** ** Containment of errors *)

(** X22.  Containment for a message that is a dict.  Its dispatch lets no
    exception out that derives from [Exception]: whatever its [try] block
    raises (building the agent, scoring, reading [message['id']], either
    submission, processing) is logged last, at ERROR level, with the id of
    the message, or with "unknown" when the message has none; a message
    without [id] always ends that way. *)
Theorem dispatch_errors_contained (E : env) (d : Dict.t) (h : trace) :
  let message := PDict d in
  let best_id :=
    match Dict.get d "id" with Some id => id | None => PStr "unknown" end in
  outcome (process_message E message) h = inr tt
  /\ (forall e evs,
      dispatch_body E message h = (inl e, evs) ->
      events (process_message E message) h =
        evs ++ [EvLog ERROR "Error processing message {}: {}"
                  [AVal best_id; AExn e]])
  /\ (Dict.get d "id" = None ->
      exists e evs, dispatch_body E message h = (inl e, evs)).
Proof.
  intros message best_id. subst message best_id.
  split; [apply dispatch_of_mapping_returns|]. split.
  - intros e evs Hbody.
    unfold events, process_message, try_except. rewrite Hbody.
    unfold dispatch_handler, bind, lift, logger, emit. simpl.
    now destruct (Dict.get d "id").
  - intros Hid. unfold_dispatch. simpl. rewrite Hid.
    destruct (AgentClass E) as [e|agent]; simpl; [eauto|].
    destruct (Agent.calculate_interest agent (PDict d)); simpl; eauto.
Qed.

(** C6.  The code breaks the claim on a message that is not a dict.  The
    [except] clause is there to log whatever the dispatch raised, with
    "unknown" for a missing id; but it reads the id with [message.get],
    which a string does not have.  Scoring the string "oops" raises, the
    handler raises in turn, and the exception leaves [process_message] with
    nothing logged. *)
Lemma dispatch_of_garbled_message_raises :
  process_message Samples.garbled_first Samples.garbled [] =
    (inl (AttributeError "get"),
     [EvNew true;
      EvInterest Samples.garbled
        (inl (TypeError "string indices must be integers"))]).
Proof. reflexivity. Qed.

(** A message without [id]: the dispatch ends at [message['id']] and the
    log entry carries "unknown". *)
Example missing_id_logged_as_unknown :
  process_message Samples.anonymous_first Samples.anonymous [] =
    (inr tt,
     [EvNew true;
      EvInterest Samples.anonymous (inr 0.75%float);
      EvLog ERROR "Error processing message {}: {}"
        [AVal (PStr "unknown"); AExn (KeyError "id")]]).
Proof. reflexivity. Qed.

(** ** Batches *)

(** X21.  Isolation in a batch of dicts.  In a batch whose messages are all
    dicts, every message is dispatched, in order, whatever errors deriving
    from [Exception] the dispatches before it met: the loop over the batch
    lets none of them out, builds one agent per message, and its trace
    contains the whole dispatch of each message. *)
Theorem batch_of_mappings_is_isolated (E : env) (l : list pyval) (h : trace) :
  forallb is_dict l = true ->
  outcome (for_each (process_message E) l) h = inr tt
  /\ dispatches (events (for_each (process_message E) l) h) = List.length l
  /\ forall pre message post,
      l = pre ++ message :: post ->
      let before := events (for_each (process_message E) pre) h in
      exists after,
        events (for_each (process_message E) l) h =
          before ++ events (process_message E message) (h ++ before) ++ after.
Proof.
  intros Hall. split; [now apply batch_of_mappings_returns|].
  split; [now apply batch_of_mappings_dispatches_all|].
  intros pre message post -> before. subst before.
  rewrite forallb_app in Hall. apply andb_prop in Hall as [Hpre Hrest].
  simpl in Hrest. apply andb_prop in Hrest as [Hm Hpost].
  destruct message; try discriminate.
  unfold events at 1. rewrite (batch_app E pre _ h Hpre). cbn [snd].
  set (h1 := h ++ _).
  assert (Hev : events (for_each (process_message E) (PDict d :: post)) h1 =
                events (process_message E (PDict d)) h1
                  ++ events (for_each (process_message E) post)
                       (h1 ++ events (process_message E (PDict d)) h1)).
  { unfold events at 1.
    now rewrite batch_cons,
      (bind_returns _ _ _ tt (dispatch_of_mapping_returns E d h1)). }
  rewrite Hev. eexists. reflexivity.
Qed.

Lemma batch_of_mappings_is_isolated_witness :
  outcome (for_each (process_message Samples.unscored_first)
             [Samples.unscored; Samples.m1]) [] = inr tt
  /\ dispatches
       (events (for_each (process_message Samples.unscored_first)
                  [Samples.unscored; Samples.m1]) []) = 2
  /\ forall pre message post,
      [Samples.unscored; Samples.m1] = pre ++ message :: post ->
      let before :=
        events (for_each (process_message Samples.unscored_first) pre) [] in
      exists after,
        events (for_each (process_message Samples.unscored_first)
                  [Samples.unscored; Samples.m1]) [] =
          before
            ++ events (process_message Samples.unscored_first message)
                 ([] ++ before)
            ++ after.
Proof.
  apply (batch_of_mappings_is_isolated Samples.unscored_first
           [Samples.unscored; Samples.m1] []).
  reflexivity.
Defined.

(** C5.  The code breaks the claim on a batch with a message that is not a
    dict.  Scoring the string "oops" raises; the [except] clause of
    [process_message], which is there to keep one message's error from the
    others, raises in turn at [message.get]; the exception leaves the loop
    over the batch, and [m1] behind it is never dispatched. *)
Lemma garbled_message_stops_batch :
  for_each (process_message Samples.garbled_first)
    [Samples.garbled; Samples.m1] [] =
    (inl (AttributeError "get"),
     [EvNew true;
      EvInterest Samples.garbled
        (inl (TypeError "string indices must be integers"))]).
Proof. reflexivity. Qed.

(** C10.  Let the fetched list hold a message that is not a dict, behind
    dicts only.  Its dispatch raises out of [process_message]; the handler
    of [process_messages] logs the exception and the cycle ends: it has
    dispatched the messages up to that one and none behind it, and it makes
    no subscription attempt.  The loop goes on with the next cycle. *)
Theorem non_mapping_message_ends_cycle
    (E : env) (h : trace) (rsp : response) (pre : list pyval) (bad : pyval)
    (post : list pyval) :
  let fetch_rq :=
    mkRequest GET (CORE_API_URL E) api_messages_pending (pending_params E) in
  let batch := pre ++ bad :: post in
  let opening :=
    [EvHttp fetch_rq (inr rsp);
     EvLog INFO "Received {} messages to process"
       [AVal (PInt (Z.of_nat (List.length batch)))]] in
  let before := events (for_each (process_message E) pre) (h ++ opening) in
  let failed := events (process_message E bad) (h ++ opening ++ before) in
  let cycle := events (process_messages E) h ++ [EvSleep 5] in
  net E h fetch_rq = inr rsp ->
  status_code rsp = 200%Z ->
  json rsp = inr (PList batch) ->
  forallb is_dict pre = true ->
  is_dict bad = false ->
  outcome (process_message E bad) (h ++ opening ++ before)
    = inl (AttributeError "get")
  /\ process_messages E h =
       (inr tt,
        opening ++ before ++ failed ++
          [EvLog ERROR "Error checking for messages: {}"
             [AExn (AttributeError "get")]])
  /\ dispatches (events (process_messages E) h) = List.length pre + 1
  /\ subscribe_calls (events (process_messages E) h) = 0
  /\ forall n,
      polling_loop E (S n) h =
        (inr tt, cycle ++ events (polling_loop E n) (h ++ cycle)).
Proof.
  intros fetch_rq batch opening before failed cycle Hnet Hst Hjs Hpre Hbad.
  assert (Hst' : (status_code rsp =? 200)%Z = true) by now rewrite Hst.
  assert (Hraise := dispatch_of_non_mapping_raises E bad
                      (h ++ opening ++ before) Hbad).
  assert (Hloop : for_each (process_message E) batch (h ++ opening) =
                  (inl (AttributeError "get"), before ++ failed)).
  { assert (Hstop := batch_stops_at_non_mapping E bad post
                         (h ++ opening ++ before) Hbad).
    fold failed in Hstop.
    subst batch. rewrite (batch_app E pre _ _ Hpre). fold before.
    rewrite <- app_assoc. unfold outcome, events. now rewrite Hstop. }
  assert (Hrun : process_messages E h =
                 (inr tt,
                  opening ++ before ++ failed ++
                    [EvLog ERROR "Error checking for messages: {}"
                       [AExn (AttributeError "get")]])).
  { rewrite (poll_batch E h rsp (PList batch) (Z.of_nat (List.length batch))
               batch Hnet Hst' Hjs); try reflexivity.
    - fold fetch_rq. fold opening. unfold outcome, events.
      rewrite Hloop. simpl fst. simpl snd. now rewrite <- !app_assoc.
    - subst batch. now destruct pre. }
  split; [exact Hraise|]. split; [exact Hrun|]. split; [|split].
  - unfold events at 1. rewrite Hrun. cbn [snd].
    unfold dispatches. rewrite !count_app. subst before failed.
    rewrite (batch_of_mappings_dispatches_all E pre Hpre _ : count _ _ = _).
    rewrite (dispatch_calls_constructor_once E bad _ : count _ _ = 1).
    unfold count. simpl. lia.
  - rewrite (poll_subscribe_calls E h).
    fold fetch_rq. rewrite Hnet. simpl. rewrite Hst', Hjs.
    unfold batch_completes, batch. rewrite forallb_app. simpl.
    rewrite Hbad, andb_false_r.
    now destruct pre.
  - intros n. rewrite loop_step. fold cycle.
    now rewrite loop_never_raises.
Qed.

Lemma non_mapping_message_ends_cycle_witness :
  process_messages Samples.garbled_first [] =
    (inr tt,
     [EvHttp
        (mkRequest GET "http://core:8000" api_messages_pending
           (PDict [("agent_id", PStr "a1")]))
        (Samples.ok (PList [Samples.garbled; Samples.m1]));
      EvLog INFO "Received {} messages to process" [AVal (PInt 2)];
      EvNew true;
      EvInterest Samples.garbled
        (inl (TypeError "string indices must be integers"));
      EvLog ERROR "Error checking for messages: {}"
        [AExn (AttributeError "get")]])
  /\ dispatches (events (process_messages Samples.garbled_first) []) = 1
  /\ subscribe_calls (events (process_messages Samples.garbled_first) []) = 0.
Proof.
  destruct (non_mapping_message_ends_cycle Samples.garbled_first []
              (mkResponse 200 "OK"
                 (inr (PList [Samples.garbled; Samples.m1])))
              [] Samples.garbled [Samples.m1]
              eq_refl eq_refl eq_refl eq_refl eq_refl)
    as (_ & Hrun & Hcount & Hsub & _).
  split; [exact Hrun|]. split; [exact Hcount | exact Hsub].
Defined.

(** ** Phase ordering *)

Ltac peel H :=
  lazymatch type of H with
  | _ = ?b ++ _ :: _ =>
      destruct b as [|? b]; simpl in H;
      [ try discriminate H; inversion H; subst; clear H
      | try discriminate H;
        let Hhd := fresh "Hhd" in
        let Htl := fresh "Htl" in
        injection H as Hhd Htl; subst; peel Htl ]
  end.

(** C7.  In the trace of a dispatch, a result submission for a message id
    comes only after an interest submission for the same id, and that one
    was answered. *)
Theorem interest_precedes_result
    (E : env) (message : pyval) (h : trace)
    (before after : trace) (rq : request) (answer : result response)
    (id : pyval) :
  events (process_message E message) h = before ++ EvHttp rq answer :: after ->
  target rq = api_messages_process id ->
  exists rq' rsp,
    In (EvHttp rq' (inr rsp)) before
    /\ method rq' = POST
    /\ target rq' = api_messages_interest id.
Proof.
  intros Hsplit Htarget. revert Hsplit.
  run_dispatch message; intros Hsplit; peel Hsplit;
    simpl in Htarget; try discriminate Htarget;
    injection Htarget as <-;
    do 2 eexists;
    (split;
     [ simpl; repeat (first [left; reflexivity | right])
     | split; reflexivity ]).
Qed.

Lemma interest_precedes_result_witness :
  exists rq' rsp,
    In (EvHttp rq' (inr rsp))
      [EvNew true;
       EvInterest Samples.m1 (inr 0.75%float);
       EvLog INFO "Interest score for message {}: {}"
         [AVal (PStr "m1"); AVal (PFloat 0.75)];
       EvHttp
         (mkRequest POST "http://core:8000"
            (api_messages_interest (PStr "m1"))
            (interest_body Samples.two_messages 0.75))
         (Samples.ok (PDict []));
       EvProcess Samples.m1 (inr (PDict [("summary", PStr "done")]))]
    /\ method rq' = POST
    /\ target rq' = api_messages_interest (PStr "m1").
Proof.
  apply (interest_precedes_result Samples.two_messages Samples.m1 [] _
           [EvLog INFO "Successfully processed message {}"
              [AVal (PStr "m1")]]
           (mkRequest POST "http://core:8000"
              (api_messages_process (PStr "m1"))
              (result_body Samples.two_messages
                 (PDict [("summary", PStr "done");
                         ("agent_id", PStr "a1")])))
           (Samples.ok (PDict []))
           (PStr "m1"));
    reflexivity.
Defined.

(** ** The submitted result *)

Lemma include_agent_id_of_dict (E : env) (d : Dict.t) :
  include_agent_id E (PDict d) =
    PDict match Dict.get d "agent_id" with
          | Some _ => d
          | None => d ++ [("agent_id", PStr (AGENT_ID E))]
          end.
Proof.
  unfold include_agent_id, Dict.contains.
  destruct (Dict.get d "agent_id") eqn:Hget; simpl.
  - reflexivity.
  - now rewrite (dict_set_absent d "agent_id" _ Hget).
Qed.

Lemma include_agent_id_of_other (E : env) (v : pyval) :
  is_dict v = false -> include_agent_id E v = v.
Proof. destruct v; simpl; intros Hd; (reflexivity || discriminate). Qed.

Ltac in_cases H :=
  simpl in H;
  repeat match type of H with
         | _ \/ _ => destruct H as [H|H]
         end;
  try contradiction; try discriminate H.

(** What a dispatch submits once the agent has returned a truthy result. *)
Lemma truthy_result_is_submitted
    (E : env) (message : pyval) (h : trace) (v : pyval) :
  In (EvProcess message (inr v)) (events (process_message E message) h) ->
  truthy v = true ->
  exists id answer,
    py_getitem message "id" = inr id
    /\ In (EvHttp
             (mkRequest POST (CORE_API_URL E) (api_messages_process id)
                (PDict [("agent_id", PStr (AGENT_ID E));
                        ("result", include_agent_id E v)]))
             answer)
         (events (process_message E message) h).
Proof.
  intros Hin Htruthy. revert Hin.
  run_dispatch message; intros Hin; in_cases Hin;
    injection Hin as ->; try congruence;
    do 2 eexists; (split; [reflexivity|]);
    simpl; repeat (first [left; reflexivity | right]).
Qed.

(** C9.  When the agent's [process_message] returns a truthy value that is
    not a dict, nothing is added to it and the dispatch posts it as it is,
    under "result", to the result endpoint of the message. *)
Theorem non_mapping_result_submitted_unchanged
    (E : env) (message : pyval) (h : trace) (v : pyval) :
  In (EvProcess message (inr v)) (events (process_message E message) h) ->
  truthy v = true ->
  is_dict v = false ->
  include_agent_id E v = v
  /\ exists id answer,
      py_getitem message "id" = inr id
      /\ In (EvHttp
               (mkRequest POST (CORE_API_URL E) (api_messages_process id)
                  (PDict [("agent_id", PStr (AGENT_ID E)); ("result", v)]))
               answer)
           (events (process_message E message) h).
Proof.
  intros Hin Htruthy Hother.
  assert (Hsame := include_agent_id_of_other E v Hother).
  split; [exact Hsame|].
  destruct (truthy_result_is_submitted E message h v Hin Htruthy)
    as (id & answer & Hid & Hpost).
  rewrite Hsame in Hpost. now exists id, answer.
Qed.

Lemma non_mapping_result_submitted_unchanged_witness :
  include_agent_id Samples.shouted (PStr "done") = PStr "done"
  /\ exists id answer,
      py_getitem Samples.m1 "id" = inr id
      /\ In (EvHttp
               (mkRequest POST "http://core:8000" (api_messages_process id)
                  (PDict [("agent_id", PStr "a1");
                          ("result", PStr "done")]))
               answer)
           (events (process_message Samples.shouted Samples.m1) []).
Proof.
  apply (non_mapping_result_submitted_unchanged Samples.shouted Samples.m1 []
           (PStr "done")).
  - simpl. tauto.
  - reflexivity.
  - reflexivity.
Defined.

(** C4.  When the agent's [process_message] returns a non-empty dict, the
    dispatch posts it under "result" to the result endpoint of the message:
    with ["agent_id"] set to [AGENT_ID], after the other fields, when the
    dict had no such key, and as it is when it had one.  Every other field
    keeps its value. *)
Theorem agent_id_inserted_when_absent
    (E : env) (message : pyval) (h : trace) (d : Dict.t) :
  In (EvProcess message (inr (PDict d)))
     (events (process_message E message) h) ->
  d <> [] ->
  let d' :=
    match Dict.get d "agent_id" with
    | Some _ => d
    | None => d ++ [("agent_id", PStr (AGENT_ID E))]
    end in
  (exists id answer,
      py_getitem message "id" = inr id
      /\ In (EvHttp
               (mkRequest POST (CORE_API_URL E) (api_messages_process id)
                  (PDict [("agent_id", PStr (AGENT_ID E));
                          ("result", PDict d')]))
               answer)
           (events (process_message E message) h))
  /\ Dict.get d' "agent_id" =
       Some match Dict.get d "agent_id" with
            | Some own => own
            | None => PStr (AGENT_ID E)
            end
  /\ forall k, k <> "agent_id" -> Dict.get d' k = Dict.get d k.
Proof.
  intros Hin Hne d'.
  assert (Htruthy : truthy (PDict d) = true) by (now destruct d).
  destruct (truthy_result_is_submitted E message h _ Hin Htruthy)
    as (id & answer & Hid & Hpost).
  rewrite include_agent_id_of_dict in Hpost. fold d' in Hpost.
  split; [now exists id, answer|].
  subst d'. destruct (Dict.get d "agent_id") as [own|] eqn:Hget.
  - split; [exact Hget | reflexivity].
  - split.
    + now apply dict_get_app_new.
    + intros k Hk. now apply dict_get_app_other.
Qed.

Lemma agent_id_inserted_when_absent_witness :
  (exists id answer,
      py_getitem Samples.m1 "id" = inr id
      /\ In (EvHttp
               (mkRequest POST "http://core:8000" (api_messages_process id)
                  (PDict [("agent_id", PStr "a1");
                          ("result",
                           PDict [("summary", PStr "done");
                                  ("agent_id", PStr "a1")])]))
               answer)
           (events (process_message Samples.two_messages Samples.m1) []))
  /\ (exists id answer,
      py_getitem Samples.m1 "id" = inr id
      /\ In (EvHttp
               (mkRequest POST "http://core:8000" (api_messages_process id)
                  (PDict [("agent_id", PStr "a1");
                          ("result",
                           PDict [("agent_id", PStr "someone-else");
                                  ("summary", PStr "done")])]))
               answer)
           (events (process_message Samples.signed Samples.m1) [])).
Proof.
  split.
  - apply (agent_id_inserted_when_absent Samples.two_messages Samples.m1 []
             [("summary", PStr "done")]).
    + simpl. tauto.
    + discriminate.
  - apply (agent_id_inserted_when_absent Samples.signed Samples.m1 []
             [("agent_id", PStr "someone-else"); ("summary", PStr "done")]).
    + simpl. tauto.
    + discriminate.
Defined.

(** ** The scenario of two messages

    The service hands out [m1] (score 0.75) and [m2] (score 0.25) to an agent
    with threshold 0.5: interest is submitted for both, the agent processes
    [m1] only, and one result is submitted. *)
Example two_messages_one_processed :
  let evs := events (process_messages Samples.two_messages) [] in
  dispatches evs = 2
  /\ count interest_answered evs = 2
  /\ process_calls evs = 1
  /\ count is_result_submission evs = 1
  /\ subscribe_calls evs = 1
  /\ existsb is_alarm evs = false.
Proof. repeat split; reflexivity. Qed.

(** * More of the container

    Properties of the same functions that the claims above leave out, and of
    [register_with_core_system], [main] and the start-up code. *)

(** ** What one dispatch does and does not do *)

Lemma dispatch_request_budget_aux (E : env) (message : pyval) (h : trace) :
  let evs := events (process_message E message) h in
  count is_http evs
    = count is_interest_submission evs + count is_result_submission evs
  /\ count is_result_submission evs <= process_calls evs
  /\ process_calls evs <= count interest_answered evs
  /\ count interest_answered evs <= count is_interest_submission evs
  /\ count is_interest_submission evs <= count is_scoring evs
  /\ count is_scoring evs <= 1.
Proof.
  run_dispatch message; unfold process_calls, count; simpl; lia.
Qed.

(** X1.  The steps of a dispatch are an initial part of: scoring, interest
    submission, processing, result submission, in this order and each at
    most once.  The dispatch makes no request but the two submissions, and
    it calls the agent's [process_message] only if the interest submission
    was answered. *)
Theorem dispatch_request_budget (E : env) (message : pyval) (h : trace) :
  let evs := events (process_message E message) h in
  (exists k,
      k <= 4
      /\ filter (fun n => negb (Nat.eqb n 0)) (map phase evs) = seq 1 k)
  /\ count is_http evs
     = count is_interest_submission evs + count is_result_submission evs
  /\ process_calls evs <= count interest_answered evs.
Proof.
  run_dispatch message; (split; [|split]);
    try (unfold process_calls, count; simpl; lia);
    first [ exists 0; split; [lia | reflexivity]
          | exists 1; split; [lia | reflexivity]
          | exists 2; split; [lia | reflexivity]
          | exists 3; split; [lia | reflexivity]
          | exists 4; split; [lia | reflexivity] ].
Qed.

(** X2.  A result submission is made only for a message with an [id] whose
    score reached the threshold and for which the agent returned a truthy
    result; it is a POST to the result endpoint of that id, and carries
    [AGENT_ID] and the result, with ["agent_id"] added to a dict that had
    none. *)
Theorem result_submission_is_earned
    (E : env) (message : pyval) (h : trace) (rq : request)
    (answer : result response) :
  In (EvHttp rq answer) (events (process_message E message) h) ->
  is_result_path (target rq) = true ->
  exists agent score v id,
    AgentClass E = inr agent
    /\ Agent.calculate_interest agent message = inr score
    /\ PrimFloat.leb (Agent.classifier_threshold agent) score = true
    /\ Agent.process_message agent message = inr v
    /\ truthy v = true
    /\ py_getitem message "id" = inr id
    /\ rq = mkRequest POST (CORE_API_URL E) (api_messages_process id)
              (PDict [("agent_id", PStr (AGENT_ID E));
                      ("result", include_agent_id E v)]).
Proof.
  intros Hin Hpath. revert Hin.
  run_dispatch message; intros Hin; in_cases Hin;
    injection Hin as <- <-; simpl in Hpath; try discriminate Hpath;
    do 4 eexists; repeat split; try reflexivity; eassumption.
Qed.

Lemma result_submission_is_earned_witness :
  exists agent score v id,
    AgentClass Samples.two_messages = inr agent
    /\ Agent.calculate_interest agent Samples.m1 = inr score
    /\ PrimFloat.leb (Agent.classifier_threshold agent) score = true
    /\ Agent.process_message agent Samples.m1 = inr v
    /\ truthy v = true
    /\ py_getitem Samples.m1 "id" = inr id
    /\ mkRequest POST "http://core:8000" (api_messages_process (PStr "m1"))
         (PDict [("agent_id", PStr "a1");
                 ("result",
                  PDict [("summary", PStr "done"); ("agent_id", PStr "a1")])])
       = mkRequest POST (CORE_API_URL Samples.two_messages)
           (api_messages_process id)
           (PDict [("agent_id", PStr (AGENT_ID Samples.two_messages));
                   ("result", include_agent_id Samples.two_messages v)]).
Proof.
  apply (result_submission_is_earned Samples.two_messages Samples.m1 []
           (mkRequest POST "http://core:8000"
              (api_messages_process (PStr "m1"))
              (PDict [("agent_id", PStr "a1");
                      ("result",
                       PDict [("summary", PStr "done");
                              ("agent_id", PStr "a1")])]))
           (Samples.ok (PDict []))).
  - simpl. tauto.
  - reflexivity.
Defined.

Ltac ends_with :=
  first [ exists []; reflexivity
        | eexists [_]; reflexivity
        | eexists [_; _]; reflexivity
        | eexists [_; _; _]; reflexivity
        | eexists [_; _; _; _]; reflexivity
        | eexists [_; _; _; _; _]; reflexivity
        | eexists [_; _; _; _; _; _]; reflexivity ].

(** X3.  When the agent returns a falsy result ([None], an empty dict, an
    empty string, zero), nothing is submitted: the dispatch ends with the
    INFO entry "Agent returned no result" and raises nothing. *)
Theorem falsy_result_not_submitted
    (E : env) (message : pyval) (h : trace) (v : pyval) :
  In (EvProcess message (inr v)) (events (process_message E message) h) ->
  truthy v = false ->
  outcome (process_message E message) h = inr tt
  /\ count is_result_submission (events (process_message E message) h) = 0
  /\ exists id,
      py_getitem message "id" = inr id
      /\ exists pre,
          events (process_message E message) h =
            pre ++ [EvProcess message (inr v);
                    EvLog INFO "Agent returned no result for message {}"
                      [AVal id]].
Proof.
  intros Hin Hfalsy. revert Hin.
  run_dispatch message; intros Hin; in_cases Hin;
    injection Hin as ->; try congruence;
    (split; [reflexivity|]); (split; [reflexivity|]);
    eexists; (split; [reflexivity|]); ends_with.
Qed.

Lemma falsy_result_not_submitted_witness :
  outcome (process_message Cases.quiet Samples.m1) [] = inr tt
  /\ count is_result_submission
       (events (process_message Cases.quiet Samples.m1) []) = 0
  /\ exists id,
      py_getitem Samples.m1 "id" = inr id
      /\ exists pre,
          events (process_message Cases.quiet Samples.m1) [] =
            pre ++ [EvProcess Samples.m1 (inr (PDict []));
                    EvLog INFO "Agent returned no result for message {}"
                      [AVal id]].
Proof.
  apply (falsy_result_not_submitted Cases.quiet Samples.m1 [] (PDict [])).
  - simpl. tauto.
  - reflexivity.
Defined.

(** X4.  After a result submission the dispatch writes one more log entry
    and ends: INFO "Successfully processed" on a 200, WARNING with status
    and body on any other status, ERROR with the exception when the
    submission raised.  The submission is not repeated. *)
Theorem result_submission_outcome_logged
    (E : env) (message : pyval) (h : trace) (rq : request)
    (answer : result response) :
  In (EvHttp rq answer) (events (process_message E message) h) ->
  is_result_path (target rq) = true ->
  outcome (process_message E message) h = inr tt
  /\ count is_result_submission (events (process_message E message) h) = 1
  /\ exists id,
      py_getitem message "id" = inr id
      /\ exists pre,
          events (process_message E message) h =
            pre ++ [EvHttp rq answer; closing_entry id answer].
Proof.
  intros Hin Hpath. revert Hin.
  run_dispatch message; intros Hin; in_cases Hin;
    injection Hin as <- <-; simpl in Hpath; try discriminate Hpath;
    (split; [reflexivity|]); (split; [reflexivity|]);
    eexists; (split; [reflexivity|]);
    unfold closing_entry;
    repeat match goal with
           | H : (_ =? _)%Z = _ |- _ => rewrite H
           end;
    ends_with.
Qed.

Lemma result_submission_outcome_logged_witness :
  outcome (process_message Cases.result_503 Samples.m1) [] = inr tt
  /\ count is_result_submission
       (events (process_message Cases.result_503 Samples.m1) []) = 1
  /\ exists id,
      py_getitem Samples.m1 "id" = inr id
      /\ exists pre,
          events (process_message Cases.result_503 Samples.m1) [] =
            pre ++ [EvHttp
                      (mkRequest POST "http://core:8000"
                         (api_messages_process (PStr "m1"))
                         (PDict [("agent_id", PStr "a1");
                                 ("result",
                                  PDict [("summary", PStr "done");
                                         ("agent_id", PStr "a1")])]))
                      (Samples.failure 503 "Service Unavailable");
                    EvLog WARNING "Error submitting processing result: {} - {}"
                      [AVal (PInt 503); AVal (PStr "Service Unavailable")]].
Proof.
  apply (result_submission_outcome_logged Cases.result_503 Samples.m1 []
           (mkRequest POST "http://core:8000"
              (api_messages_process (PStr "m1"))
              (PDict [("agent_id", PStr "a1");
                      ("result",
                       PDict [("summary", PStr "done");
                              ("agent_id", PStr "a1")])]))
           (Samples.failure 503 "Service Unavailable")).
  - simpl. tauto.
  - reflexivity.
Defined.

(** X5.  A dispatch sends nothing to the coordination service unless the
    message is a dict with an [id], the agent was built and it scored the
    message: in particular no interest is submitted for a message that the
    agent failed to score. *)
Theorem no_request_without_score_and_id
    (E : env) (message : pyval) (h : trace) :
  let evs := events (process_message E message) h in
  (forall rq answer,
      In (EvHttp rq answer) evs ->
      exists agent score id,
        AgentClass E = inr agent
        /\ Agent.calculate_interest agent message = inr score
        /\ py_getitem message "id" = inr id)
  /\ (forall e, AgentClass E = inl e -> count is_scoring evs = 0)
  /\ (forall agent e,
      AgentClass E = inr agent ->
      Agent.calculate_interest agent message = inl e ->
      count is_http evs = 0 /\ process_calls evs = 0).
Proof.
  intros evs. subst evs. split; [|split].
  - intros rq answer Hin. revert Hin.
    run_dispatch message; intros Hin; in_cases Hin;
      do 3 eexists; repeat split; first [reflexivity | eassumption].
  - intros e He. unfold_dispatch. rewrite He.
    destruct message; simpl; try reflexivity.
    now destruct (Dict.get d "id").
  - intros agent e Hag Hsc. unfold_dispatch. rewrite Hag. simpl.
    rewrite Hsc. destruct message; simpl; try (split; reflexivity).
    now destruct (Dict.get d "id").
Qed.

(** X6.  When the agent's [process_message] raises, the interest has been
    submitted and answered, no result is submitted, and the dispatch ends
    with the exception logged at ERROR level under the id of the message. *)
Theorem processing_error_logged
    (E : env) (message : pyval) (h : trace) (e : exn) :
  In (EvProcess message (inl e)) (events (process_message E message) h) ->
  outcome (process_message E message) h = inr tt
  /\ count interest_answered (events (process_message E message) h) = 1
  /\ count is_result_submission (events (process_message E message) h) = 0
  /\ exists id,
      py_getitem message "id" = inr id
      /\ exists pre,
          events (process_message E message) h =
            pre ++ [EvProcess message (inl e);
                    EvLog ERROR "Error processing message {}: {}"
                      [AVal id; AExn e]].
Proof.
  intros Hin. revert Hin.
  run_dispatch message; intros Hin; in_cases Hin;
    injection Hin as ->;
    (split; [reflexivity|]); (split; [reflexivity|]);
    (split; [reflexivity|]);
    eexists; (split; [reflexivity|]); ends_with.
Qed.

Lemma processing_error_logged_witness :
  outcome (process_message Cases.crash Samples.m1) [] = inr tt
  /\ count interest_answered
       (events (process_message Cases.crash Samples.m1) []) = 1
  /\ count is_result_submission
       (events (process_message Cases.crash Samples.m1) []) = 0
  /\ exists id,
      py_getitem Samples.m1 "id" = inr id
      /\ exists pre,
          events (process_message Cases.crash Samples.m1) [] =
            pre ++ [EvProcess Samples.m1
                      (inl (AgentError "model not loaded"));
                    EvLog ERROR "Error processing message {}: {}"
                      [AVal id; AExn (AgentError "model not loaded")]].
Proof.
  apply (processing_error_logged Cases.crash Samples.m1 []
           (AgentError "model not loaded")).
  simpl. tauto.
Defined.

(** X7.  Adding the agent id twice is adding it once; afterwards a dict
    result has the key ["agent_id"], and a value that is not a dict is as
    it was. *)
Theorem include_agent_id_idempotent (E : env) (v : pyval) :
  include_agent_id E (include_agent_id E v) = include_agent_id E v
  /\ is_dict (include_agent_id E v) = is_dict v
  /\ match include_agent_id E v with
     | PDict d => Dict.contains d "agent_id" = true
     | other => other = v
     end.
Proof.
  destruct v; try (repeat split; reflexivity).
  rewrite include_agent_id_of_dict.
  destruct (Dict.get d "agent_id") as [own|] eqn:Hget.
  - assert (Hsame : include_agent_id E (PDict d) = PDict d)
      by now rewrite include_agent_id_of_dict, Hget.
    repeat split; [exact Hsame|].
    unfold Dict.contains. now rewrite Hget.
  - assert (Hin := dict_get_app_new d "agent_id" (PStr (AGENT_ID E)) Hget).
    repeat split.
    + now rewrite include_agent_id_of_dict, Hin.
    + unfold Dict.contains. now rewrite Hin.
Qed.

(** ** What one polling cycle does and does not do *)

Lemma dispatch_never_registers (E : env) (message : pyval) (h : trace) :
  count is_register_call (events (process_message E message) h) = 0.
Proof. run_dispatch message; reflexivity. Qed.

Lemma dispatch_never_sleeps (E : env) (message : pyval) (h : trace) :
  count is_sleep (events (process_message E message) h) = 0.
Proof. run_dispatch message; reflexivity. Qed.

Lemma dispatch_of_non_mapping_is_silent
    (E : env) (message : pyval) (h : trace) :
  is_dict message = false ->
  count is_http (events (process_message E message) h) = 0
  /\ count is_log (events (process_message E message) h) = 0.
Proof.
  intros Hm. run_dispatch message; try discriminate; split; reflexivity.
Qed.

Section BatchCounts.

Variable E : env.
Variables p q : event -> bool.

Lemma batch_count_zero :
  (forall m h, count p (events (process_message E m) h) = 0) ->
  forall l h, count p (events (for_each (process_message E) l) h) = 0.
Proof.
  intros Hp l. induction l as [|m l IH]; intros h.
  - reflexivity.
  - unfold events. rewrite batch_cons.
    destruct (outcome (process_message E m) h) as [e|[]] eqn:Hout.
    + rewrite (bind_raises _ _ _ _ Hout). simpl. apply Hp.
    + rewrite (bind_returns _ _ _ _ Hout). simpl.
      rewrite count_app, Hp. apply IH.
Qed.

Lemma batch_count_le :
  (forall m h, count p (events (process_message E m) h)
               <= count q (events (process_message E m) h)) ->
  forall l h,
    count p (events (for_each (process_message E) l) h)
    <= count q (events (for_each (process_message E) l) h).
Proof.
  intros Hpq l. induction l as [|m l IH]; intros h.
  - apply le_n.
  - unfold events. rewrite batch_cons.
    destruct (outcome (process_message E m) h) as [e|[]] eqn:Hout.
    + rewrite (bind_raises _ _ _ _ Hout). simpl. apply Hpq.
    + rewrite (bind_returns _ _ _ _ Hout). simpl.
      rewrite !count_app.
      apply Nat.add_le_mono; [apply Hpq | apply IH].
Qed.

End BatchCounts.

Lemma batch_dispatches_at_most_all (E : env) (l : list pyval) :
  forall h,
    dispatches (events (for_each (process_message E) l) h) <= List.length l.
Proof.
  induction l as [|m l IH]; intros h.
  - apply le_n.
  - unfold events. rewrite batch_cons.
    destruct (outcome (process_message E m) h) as [e|[]] eqn:Hout.
    + rewrite (bind_raises _ _ _ _ Hout). simpl.
      rewrite dispatch_calls_constructor_once. lia.
    + rewrite (bind_returns _ _ _ _ Hout). simpl.
      unfold dispatches in *. rewrite count_app.
      rewrite (dispatch_calls_constructor_once E m h : count _ _ = 1).
      specialize (IH (h ++ events (process_message E m) h)). lia.
Qed.

(** X8.  In the trace of a batch, whatever the messages are: an agent is
    built for at most each message; every scoring, interest submission,
    call of the agent's [process_message] and result submission belongs to
    a dispatch of its own, in that order of containment; and the batch
    neither fetches, subscribes, registers nor sleeps. *)
Theorem batch_calls_bounded (E : env) (l : list pyval) (h : trace) :
  let evs := events (for_each (process_message E) l) h in
  dispatches evs <= List.length l
  /\ count is_scoring evs <= dispatches evs
  /\ count is_interest_submission evs <= count is_scoring evs
  /\ process_calls evs <= count interest_answered evs
  /\ count is_result_submission evs <= process_calls evs
  /\ fetch_calls evs = 0
  /\ subscribe_calls evs = 0
  /\ count is_register_call evs = 0
  /\ count is_sleep evs = 0.
Proof.
  intros evs. subst evs.
  split; [apply batch_dispatches_at_most_all|].
  split.
  { apply batch_count_le. intros m h0.
    rewrite (dispatch_calls_constructor_once E m h0 : count _ _ = 1).
    apply (dispatch_request_budget_aux E m h0). }
  split.
  { apply batch_count_le. intros m h0.
    apply (dispatch_request_budget_aux E m h0). }
  split.
  { apply (batch_count_le E is_process_call). intros m h0.
    apply (dispatch_request_budget_aux E m h0). }
  split.
  { apply (batch_count_le E _ is_process_call). intros m h0.
    apply (dispatch_request_budget_aux E m h0). }
  split; [apply batch_never_fetches|].
  split; [apply batch_never_subscribes|].
  split; apply batch_count_zero;
    [apply dispatch_never_registers | apply dispatch_never_sleeps].
Qed.

Lemma count_logs_zero (p : event -> bool) (l : trace) :
  forallb is_log l = true ->
  (forall lvl template args, p (EvLog lvl template args) = false) ->
  count p l = 0.
Proof.
  intros Hlogs Hp. induction l as [|ev l IH].
  - reflexivity.
  - simpl in Hlogs. apply andb_prop in Hlogs as [Hev Hl].
    rewrite count_cons, (IH Hl).
    destruct ev; try discriminate. now rewrite Hp.
Qed.

Section Cycle.

Variable E : env.

Let fetch_rq : request :=
  mkRequest GET (CORE_API_URL E) api_messages_pending (pending_params E).

Let subscribe_rq : request :=
  mkRequest POST (CORE_API_URL E) api_agents_subscribe (subscribe_request E).

(** A cycle is the fetch, then log entries, the dispatches of a batch, a
    subscription attempt or none, and log entries. *)
Lemma poll_shape (h : trace) :
  exists logs1 items h1 (sub : bool) h2 logs2,
    events (process_messages E) h =
      EvHttp fetch_rq (net E h fetch_rq)
        :: logs1
        ++ events (for_each (process_message E) items) h1
        ++ (if sub then events (subscribe_to_events E) h2 else [])
        ++ logs2
    /\ forallb is_log logs1 = true
    /\ forallb is_log logs2 = true.
Proof.
  unfold events at 1.
  destruct (net E h fetch_rq) as [e|rsp] eqn:Hnet.
  { rewrite (poll_fetch_raises E h e Hnet).
    exists [], [], h, false, h, [EvLog ERROR "Error checking for messages: {}"
                                   [AExn e]].
    repeat split. }
  destruct (status_code rsp =? 200)%Z eqn:Hst.
  2: { rewrite (poll_fetch_rejected E h rsp Hnet Hst).
       exists [], [], h, false, h,
         [EvLog ERROR "Failed to get pending messages: {} - {}"
            [status rsp; body_text rsp]].
       repeat split. }
  destruct (json rsp) as [e|messages] eqn:Hjs.
  { rewrite (poll_body_undecodable E h rsp e Hnet Hst Hjs).
    exists [], [], h, false, h, [EvLog ERROR "Error checking for messages: {}"
                                   [AExn e]].
    repeat split. }
  destruct (truthy messages) eqn:Htruthy.
  2: { rewrite (poll_nothing_pending E h rsp messages Hnet Hst Hjs Htruthy).
       exists [], [], h, true, (h ++ [EvHttp fetch_rq (inr rsp)]), [].
       cbn [snd]. change (events (for_each (process_message E) []) h)
         with (@nil event).
       rewrite app_nil_r. repeat split. }
  assert (Hsz := sized_iff_iterable messages).
  destruct (py_len messages) as [e|n] eqn:Hlen.
  { rewrite (poll_not_sized E h rsp messages e Hnet Hst Hjs Htruthy Hlen).
    exists [], [], h, false, h, [EvLog ERROR "Error checking for messages: {}"
                                   [AExn e]].
    repeat split. }
  destruct (py_iter messages) as [e|items] eqn:Hiter; [contradiction|].
  rewrite (poll_batch E h rsp messages n items Hnet Hst Hjs Htruthy Hlen Hiter).
  cbn [snd]. fold fetch_rq.
  set (h1 := h ++ _).
  destruct (outcome (for_each (process_message E) items) h1) as [e|[]].
  - exists [EvLog INFO "Received {} messages to process" [AVal (PInt n)]],
      items, h1, false, h,
      [EvLog ERROR "Error checking for messages: {}" [AExn e]].
    repeat split.
  - eexists [EvLog INFO "Received {} messages to process" [AVal (PInt n)]],
      items, h1, true, _, [].
    rewrite app_nil_r. repeat split.
Qed.

(** What neither a log entry, the fetch, a dispatch nor a subscription
    attempt does, a cycle does not do. *)
Lemma poll_count_zero (p : event -> bool) (h : trace) :
  (forall lvl template args, p (EvLog lvl template args) = false) ->
  (forall m h', count p (events (process_message E m) h') = 0) ->
  (forall h', count p (events (subscribe_to_events E) h') = 0) ->
  exists rest,
    events (process_messages E) h = EvHttp fetch_rq (net E h fetch_rq) :: rest
    /\ count p rest = 0.
Proof.
  intros Hlog Hdispatch Hsub.
  destruct (poll_shape h)
    as (logs1 & items & h1 & sub & h2 & logs2 & Hev & Hl1 & Hl2).
  eexists. split; [exact Hev|].
  rewrite !count_app.
  rewrite (count_logs_zero p logs1 Hl1 Hlog).
  rewrite (count_logs_zero p logs2 Hl2 Hlog).
  rewrite (batch_count_zero E p Hdispatch).
  destruct sub; [now rewrite Hsub | reflexivity].
Qed.

End Cycle.

(** X9.  A polling cycle starts with the GET of the pending messages, with
    [AGENT_ID] as its only parameter; it fetches no second time, and it
    neither registers nor sleeps. *)
Theorem cycle_fetches_first_and_once (E : env) (h : trace) :
  let fetch_rq :=
    mkRequest GET (CORE_API_URL E) api_messages_pending
      (PDict [("agent_id", PStr (AGENT_ID E))]) in
  exists rest,
    events (process_messages E) h = EvHttp fetch_rq (net E h fetch_rq) :: rest
    /\ fetch_calls rest = 0
    /\ count is_register_call rest = 0
    /\ count is_sleep rest = 0.
Proof.
  intros fetch_rq.
  destruct (poll_count_zero E is_fetch_call h) as (rest & Hev & Hfetch).
  { reflexivity. }
  { apply dispatch_never_fetches. }
  { apply subscribe_never_fetches. }
  destruct (poll_count_zero E is_register_call h) as (rest1 & Hev1 & Hreg).
  { reflexivity. }
  { apply dispatch_never_registers. }
  { intros h'. destruct (subscribe_shape E h') as (entry & -> & Hentry).
    destruct entry; try discriminate. reflexivity. }
  destruct (poll_count_zero E is_sleep h) as (rest2 & Hev2 & Hsleep).
  { reflexivity. }
  { apply dispatch_never_sleeps. }
  { intros h'. destruct (subscribe_shape E h') as (entry & -> & Hentry).
    destruct entry; try discriminate. reflexivity. }
  rewrite Hev in Hev1, Hev2.
  injection Hev1 as <-. injection Hev2 as <-.
  exists rest. repeat split; assumption.
Qed.

(** X10.  When the fetch fails (the request raises, the status is not 200,
    or the body of a 200 is not JSON) the cycle writes one ERROR entry and
    ends: nothing is dispatched, no subscription is attempted, and no
    exception reaches the loop. *)
Theorem failed_fetch_ends_cycle (E : env) (h : trace) (entry : event) :
  let fetch_rq :=
    mkRequest GET (CORE_API_URL E) api_messages_pending (pending_params E) in
  fetch_failure (net E h fetch_rq) = Some entry ->
  process_messages E h =
    (inr tt, [EvHttp fetch_rq (net E h fetch_rq); entry])
  /\ is_alarm entry = true.
Proof.
  intros fetch_rq. unfold fetch_failure.
  destruct (net E h fetch_rq) as [e|rsp] eqn:Hnet.
  { intros [= <-]. split; [|reflexivity].
    apply (poll_fetch_raises E h e Hnet). }
  destruct (status_code rsp =? 200)%Z eqn:Hst.
  2: { intros [= <-]. split; [|reflexivity].
       apply (poll_fetch_rejected E h rsp Hnet Hst). }
  destruct (json rsp) as [e|messages] eqn:Hjs; [|discriminate].
  intros [= <-]. split; [|reflexivity].
  apply (poll_body_undecodable E h rsp e Hnet Hst Hjs).
Qed.

Lemma failed_fetch_ends_cycle_witness :
  process_messages Samples.fetch_500 [] =
    (inr tt,
     [EvHttp
        (mkRequest GET "http://core:8000" api_messages_pending
           (PDict [("agent_id", PStr "a1")]))
        (Samples.failure 500 "Internal Server Error");
      EvLog ERROR "Failed to get pending messages: {} - {}"
        [AVal (PInt 500); AVal (PStr "Internal Server Error")]])
  /\ is_alarm
       (EvLog ERROR "Failed to get pending messages: {} - {}"
          [AVal (PInt 500); AVal (PStr "Internal Server Error")]) = true.
Proof.
  apply (failed_fetch_ends_cycle Samples.fetch_500 []). reflexivity.
Defined.

(** X11.  When the fetch answers 200 with an empty body (an empty list, or
    any other falsy value), the cycle dispatches nothing and logs nothing
    about messages: it is the fetch followed by one subscription attempt. *)
Theorem nothing_pending_only_subscribes
    (E : env) (h : trace) (rsp : response) (messages : pyval) :
  let fetch_rq :=
    mkRequest GET (CORE_API_URL E) api_messages_pending (pending_params E) in
  let subscribe_rq :=
    mkRequest POST (CORE_API_URL E) api_agents_subscribe
      (subscribe_request E) in
  let h1 := h ++ [EvHttp fetch_rq (inr rsp)] in
  net E h fetch_rq = inr rsp ->
  status_code rsp = 200%Z ->
  json rsp = inr messages ->
  truthy messages = false ->
  exists entry,
    process_messages E h =
      (inr tt,
       [EvHttp fetch_rq (inr rsp);
        EvHttp subscribe_rq (net E h1 subscribe_rq);
        entry])
    /\ is_log entry = true.
Proof.
  intros fetch_rq subscribe_rq h1 Hnet Hst Hjs Hfalsy.
  assert (Hst' : (status_code rsp =? 200)%Z = true) by now rewrite Hst.
  rewrite (poll_nothing_pending E h rsp messages Hnet Hst' Hjs Hfalsy).
  destruct (subscribe_shape E h1) as (entry & Hsub & Hentry).
  fold fetch_rq. fold h1. rewrite Hsub. now exists entry.
Qed.

Lemma nothing_pending_only_subscribes_witness :
  exists entry,
    process_messages Cases.nothing_pending [] =
      (inr tt,
       [EvHttp
          (mkRequest GET "http://core:8000" api_messages_pending
             (PDict [("agent_id", PStr "a1")]))
          (Samples.ok (PList []));
        EvHttp
          (mkRequest POST "http://core:8000" api_agents_subscribe
             (subscribe_request Cases.nothing_pending))
          (Samples.failure 404 "Not Found");
        entry])
    /\ is_log entry = true.
Proof.
  apply (nothing_pending_only_subscribes Cases.nothing_pending []
           (mkResponse 200 "OK" (inr (PList []))) (PList []));
    reflexivity.
Defined.

(** X12.  When the fetch answers 200 with a non-empty list of dicts, the
    cycle logs their number, dispatches each of them in order, and then
    makes one subscription attempt. *)
Theorem batch_cycle_dispatches_then_subscribes
    (E : env) (h : trace) (rsp : response) (l : list pyval) :
  let fetch_rq :=
    mkRequest GET (CORE_API_URL E) api_messages_pending (pending_params E) in
  let opening :=
    [EvHttp fetch_rq (inr rsp);
     EvLog INFO "Received {} messages to process"
       [AVal (PInt (Z.of_nat (List.length l)))]] in
  let batch := events (for_each (process_message E) l) (h ++ opening) in
  net E h fetch_rq = inr rsp ->
  status_code rsp = 200%Z ->
  json rsp = inr (PList l) ->
  l <> [] ->
  forallb is_dict l = true ->
  process_messages E h =
    (inr tt,
     opening ++ batch
       ++ events (subscribe_to_events E) (h ++ opening ++ batch))
  /\ dispatches (events (process_messages E) h) = List.length l
  /\ subscribe_calls (events (process_messages E) h) = 1.
Proof.
  intros fetch_rq opening batch Hnet Hst Hjs Hne Hall.
  assert (Hst' : (status_code rsp =? 200)%Z = true) by now rewrite Hst.
  assert (Htruthy : truthy (PList l) = true) by now destruct l.
  assert (Hrun : process_messages E h =
                 (inr tt,
                  opening ++ batch
                    ++ events (subscribe_to_events E) (h ++ opening ++ batch))).
  { rewrite (poll_batch E h rsp (PList l) (Z.of_nat (List.length l)) l
               Hnet Hst' Hjs Htruthy eq_refl eq_refl).
    fold fetch_rq. fold opening. fold batch.
    now rewrite (batch_of_mappings_returns E l Hall). }
  split; [exact Hrun|].
  change (events (process_messages E) h) with (snd (process_messages E h)).
  rewrite Hrun. cbn [snd].
  destruct (subscribe_shape E (h ++ opening ++ batch))
    as (entry & Hsub & Hentry).
  unfold dispatches, subscribe_calls. rewrite !count_app. subst batch.
  rewrite (batch_of_mappings_dispatches_all E l Hall _ : count _ _ = _).
  rewrite (batch_never_subscribes E l _ : count _ _ = 0).
  rewrite (subscribe_calls_once E _ : count _ _ = 1).
  rewrite Hsub. destruct entry; try discriminate.
  unfold count. simpl. lia.
Qed.

Lemma batch_cycle_dispatches_then_subscribes_witness :
  dispatches (events (process_messages Samples.two_messages) []) = 2
  /\ subscribe_calls (events (process_messages Samples.two_messages) []) = 1.
Proof.
  destruct (batch_cycle_dispatches_then_subscribes Samples.two_messages []
              (mkResponse 200 "OK" (inr (PList [Samples.m1; Samples.m2])))
              [Samples.m1; Samples.m2])
    as (_ & Hd & Hs); try reflexivity.
  - discriminate.
  - split; [exact Hd | exact Hs].
Defined.

Lemma dispatch_of_non_mapping_processes_nothing
    (E : env) (message : pyval) (h : trace) :
  is_dict message = false ->
  process_calls (events (process_message E message) h) = 0.
Proof.
  intros Hm. run_dispatch message; try discriminate; reflexivity.
Qed.

(** The first item of the batch is not a dict: the cycle ends there. *)
Lemma poll_bad_first
    (E : env) (h : trace) (rsp : response) (messages : pyval) (n : Z)
    (bad : pyval) (rest : list pyval) :
  let fetch_rq :=
    mkRequest GET (CORE_API_URL E) api_messages_pending (pending_params E) in
  let opening :=
    [EvHttp fetch_rq (inr rsp);
     EvLog INFO "Received {} messages to process" [AVal (PInt n)]] in
  net E h fetch_rq = inr rsp ->
  (status_code rsp =? 200)%Z = true ->
  json rsp = inr messages ->
  truthy messages = true ->
  py_len messages = inr n ->
  py_iter messages = inr (bad :: rest) ->
  is_dict bad = false ->
  process_messages E h =
    (inr tt,
     opening ++ events (process_message E bad) (h ++ opening)
       ++ [EvLog ERROR "Error checking for messages: {}"
             [AExn (AttributeError "get")]]).
Proof.
  intros fetch_rq opening Hnet Hst Hjs Htruthy Hlen Hiter Hbad.
  rewrite (poll_batch E h rsp messages n (bad :: rest)
             Hnet Hst Hjs Htruthy Hlen Hiter).
  fold fetch_rq. fold opening. unfold outcome, events.
  now rewrite (batch_stops_at_non_mapping E bad rest _ Hbad).
Qed.

(** X13.  When the fetch answers 200 with a truthy body that is not a list
    (a dict wrapping the messages, a string, a number), no message is
    processed: the cycle makes no request after the fetch, attempts no
    subscription, and ends with an ERROR entry. *)
Theorem body_that_is_no_list_is_dropped
    (E : env) (h : trace) (rsp : response) (messages : pyval) :
  let fetch_rq :=
    mkRequest GET (CORE_API_URL E) api_messages_pending (pending_params E) in
  let evs := events (process_messages E) h in
  net E h fetch_rq = inr rsp ->
  status_code rsp = 200%Z ->
  json rsp = inr messages ->
  truthy messages = true ->
  (forall l, messages <> PList l) ->
  outcome (process_messages E) h = inr tt
  /\ count is_http evs = 1
  /\ process_calls evs = 0
  /\ dispatches evs <= 1
  /\ exists pre e,
      evs = pre ++ [EvLog ERROR "Error checking for messages: {}" [AExn e]].
Proof.
  intros fetch_rq evs Hnet Hst Hjs Htruthy Hnl.
  assert (Hst' : (status_code rsp =? 200)%Z = true) by now rewrite Hst.
  split; [apply poll_never_raises|]. subst evs. unfold events.
  assert (Hbad : forall n bad rest,
             py_len messages = inr n ->
             py_iter messages = inr (bad :: rest) ->
             is_dict bad = false ->
             count is_http (snd (process_messages E h)) = 1
             /\ process_calls (snd (process_messages E h)) = 0
             /\ dispatches (snd (process_messages E h)) <= 1
             /\ exists pre e,
                 snd (process_messages E h) =
                   pre ++ [EvLog ERROR "Error checking for messages: {}"
                             [AExn e]]).
  { intros n bad rest Hlen Hiter Hb.
    rewrite (poll_bad_first E h rsp messages n bad rest
               Hnet Hst' Hjs Htruthy Hlen Hiter Hb).
    cbn [snd]. set (h1 := h ++ _).
    destruct (dispatch_of_non_mapping_is_silent E bad h1 Hb) as [Hhttp _].
    assert (Hproc := dispatch_of_non_mapping_processes_nothing E bad h1 Hb).
    assert (Hnew := dispatch_calls_constructor_once E bad h1).
    unfold process_calls, dispatches in *.
    rewrite !count_app, Hhttp, Hproc, Hnew.
    repeat split; try (unfold count; simpl; lia).
    eexists (_ :: _ :: _), _. simpl. reflexivity. }
  destruct messages; simpl in Htruthy; try discriminate.
  - rewrite (poll_not_sized E h rsp _ _ Hnet Hst' Hjs Htruthy eq_refl).
    cbn [snd].
    repeat split; try (unfold process_calls, dispatches, count; simpl; lia).
    now exists [EvHttp fetch_rq (inr rsp)], (TypeError "object has no len()").
  - rewrite (poll_not_sized E h rsp _ _ Hnet Hst' Hjs Htruthy eq_refl).
    cbn [snd].
    repeat split; try (unfold process_calls, dispatches, count; simpl; lia).
    now exists [EvHttp fetch_rq (inr rsp)], (TypeError "object has no len()").
  - rewrite (poll_not_sized E h rsp _ _ Hnet Hst' Hjs Htruthy eq_refl).
    cbn [snd].
    repeat split; try (unfold process_calls, dispatches, count; simpl; lia).
    now exists [EvHttp fetch_rq (inr rsp)], (TypeError "object has no len()").
  - destruct s as [|c s]; [discriminate|].
    apply (Hbad _ (PStr (String c EmptyString)) (chars s) eq_refl eq_refl
             eq_refl).
  - now destruct (Hnl l).
  - destruct d as [|[k v] d]; [discriminate|].
    apply (Hbad _ (PStr k) (Dict.keys d) eq_refl eq_refl eq_refl).
Qed.

Lemma body_that_is_no_list_is_dropped_witness :
  outcome (process_messages Cases.wrapped_batch) [] = inr tt
  /\ count is_http (events (process_messages Cases.wrapped_batch) []) = 1
  /\ process_calls (events (process_messages Cases.wrapped_batch) []) = 0
  /\ dispatches (events (process_messages Cases.wrapped_batch) []) <= 1
  /\ exists pre e,
      events (process_messages Cases.wrapped_batch) [] =
        pre ++ [EvLog ERROR "Error checking for messages: {}" [AExn e]].
Proof.
  apply (body_that_is_no_list_is_dropped Cases.wrapped_batch []
           (mkResponse 200 "OK"
              (inr (PDict [("messages", PList [Samples.m1])])))
           (PDict [("messages", PList [Samples.m1])]));
    try reflexivity.
  discriminate.
Defined.

(** ** Subscription and registration *)

(** X14.  [subscribe_to_events] makes exactly one request, a POST of the
    agent's id and name, the event "message.new" and the callback URL,
    writes one log entry and returns [True] exactly on a 200.  The entry is
    at INFO level on a 200, at DEBUG level on a 404 and when the request
    raised, and at WARNING level, with status and body, on any other
    status. *)
Theorem subscribe_outcome (E : env) (h : trace) :
  let subscribe_rq :=
    mkRequest POST (CORE_API_URL E) api_agents_subscribe
      (PDict [("agent_id", PStr (AGENT_ID E));
              ("name", PStr (AGENT_NAME E));
              ("events", PList [PStr "message.new"]);
              ("callback_url",
               PStr (CORE_API_URL E ++ "/api/messages/process")%string)]) in
  let answer := net E h subscribe_rq in
  subscribe_to_events E h =
    (inr (answered_200 answer),
     [EvHttp subscribe_rq answer;
      match answer with
      | inr rsp =>
          if (status_code rsp =? 200)%Z then
            EvLog INFO "Successfully subscribed to events" []
          else if (status_code rsp =? 404)%Z then
            EvLog DEBUG
              "Event subscription not implemented yet, using polling mode" []
          else
            EvLog WARNING "Failed to subscribe to events: {} - {}"
              [AVal (PInt (status_code rsp)); AVal (PStr (text rsp))]
      | inl e => EvLog DEBUG "Error subscribing to events: {}" [AExn e]
      end])
  /\ existsb is_alarm (events (subscribe_to_events E) h)
     = answered_unexpectedly answer.
Proof.
  intros subscribe_rq answer. subst answer.
  unfold events. rewrite subscribe_run.
  change (mkRequest POST (CORE_API_URL E) api_agents_subscribe
            (subscribe_request E)) with subscribe_rq.
  destruct (net E h subscribe_rq) as [e|rsp]; simpl.
  { split; reflexivity. }
  destruct (status_code rsp =? 200)%Z; simpl.
  { split; reflexivity. }
  destruct (status_code rsp =? 404)%Z; simpl; split; reflexivity.
Qed.

Lemma register_run (E : env) (h : trace) :
  let register_rq :=
    mkRequest POST (CORE_API_URL E) api_agents_register
      (PDict [("agent_id", PStr (AGENT_ID E));
              ("name", PStr (AGENT_NAME E));
              ("container_id", PStr (HOSTNAME E));
              ("status", PStr "running")]) in
  register_with_core_system E h =
    match net E h register_rq with
    | inr rsp =>
        if (status_code rsp =? 200)%Z then
          (inr true,
           [EvHttp register_rq (inr rsp);
            EvLog INFO "Agent registered successfully with core system" []])
        else
          (inr false,
           [EvHttp register_rq (inr rsp);
            EvLog ERROR "Failed to register with core system: {} - {}"
              [status rsp; body_text rsp]])
    | inl e =>
        (inr false,
         [EvHttp register_rq (inl e);
          EvLog ERROR "Error registering with core system: {}" [AExn e]])
    end.
Proof.
  intros register_rq.
  unfold register_with_core_system, try_except, bind, requests_post,
    requests_call, logger, emit, ret. fold register_rq.
  destruct (net E h register_rq) as [e|rsp]; simpl; [reflexivity|].
  destruct (status_code rsp =? 200)%Z; reflexivity.
Qed.

(** X15.  [register_with_core_system] makes exactly one request, a POST of
    the agent's id and name, the container's host name and the status
    "running", writes one log entry and returns [True] exactly on a 200.
    The entry is at INFO level on a 200 and at ERROR level otherwise: with
    status and body on another status, with the exception when the request
    raised. *)
Theorem register_outcome (E : env) (h : trace) :
  let register_rq :=
    mkRequest POST (CORE_API_URL E) api_agents_register
      (PDict [("agent_id", PStr (AGENT_ID E));
              ("name", PStr (AGENT_NAME E));
              ("container_id", PStr (HOSTNAME E));
              ("status", PStr "running")]) in
  let answer := net E h register_rq in
  register_with_core_system E h =
    (inr (answered_200 answer),
     [EvHttp register_rq answer;
      match answer with
      | inr rsp =>
          if (status_code rsp =? 200)%Z then
            EvLog INFO "Agent registered successfully with core system" []
          else
            EvLog ERROR "Failed to register with core system: {} - {}"
              [AVal (PInt (status_code rsp)); AVal (PStr (text rsp))]
      | inl e => EvLog ERROR "Error registering with core system: {}" [AExn e]
      end]).
Proof.
  intros register_rq answer. subst answer.
  rewrite register_run. fold register_rq.
  destruct (net E h register_rq) as [e|rsp]; simpl; [reflexivity|].
  now destruct (status_code rsp =? 200)%Z.
Qed.

(** ** The loop and [main] *)

Lemma count_zero_not_in (p : event -> bool) (l : trace) (ev : event) :
  count p l = 0 -> In ev l -> p ev = false.
Proof.
  induction l as [|x l IH]; intros Hc Hin.
  - contradiction.
  - rewrite count_cons in Hc. destruct Hin as [->|Hin].
    + destruct (p ev); [discriminate | reflexivity].
    + apply IH; [|exact Hin]. destruct (p x); [discriminate | exact Hc].
Qed.

Lemma poll_never_sleeps (E : env) (h : trace) :
  count is_sleep (events (process_messages E) h) = 0.
Proof.
  destruct (poll_count_zero E is_sleep h) as (rest & Hev & Hsleep).
  - reflexivity.
  - apply dispatch_never_sleeps.
  - intros h'. destruct (subscribe_shape E h') as (entry & -> & Hentry).
    destruct entry; try discriminate. reflexivity.
  - rewrite Hev, count_cons, Hsleep. reflexivity.
Qed.

Lemma poll_never_registers (E : env) (h : trace) :
  count is_register_call (events (process_messages E) h) = 0.
Proof.
  destruct (poll_count_zero E is_register_call h) as (rest & Hev & Hreg).
  - reflexivity.
  - apply dispatch_never_registers.
  - intros h'. destruct (subscribe_shape E h') as (entry & -> & Hentry).
    destruct entry; try discriminate. reflexivity.
  - rewrite Hev, count_cons, Hreg. reflexivity.
Qed.

Lemma loop_events_step (E : env) (n : nat) (h : trace) :
  events (polling_loop E (S n)) h =
    (events (process_messages E) h ++ [EvSleep 5])
      ++ events (polling_loop E n)
           (h ++ events (process_messages E) h ++ [EvSleep 5]).
Proof. unfold events at 1. now rewrite loop_step. Qed.

Lemma loop_app (E : env) (m n : nat) :
  forall h,
    events (polling_loop E (m + n)) h =
      events (polling_loop E m) h
        ++ events (polling_loop E n) (h ++ events (polling_loop E m) h).
Proof.
  induction m as [|m IH]; intros h.
  - change (events (polling_loop E 0) h) with (@nil event).
    now rewrite app_nil_r.
  - change (S m + n) with (S (m + n)).
    rewrite !loop_events_step, IH, <- !app_assoc. reflexivity.
Qed.

(** X16.  Polling for [m + n] cycles is polling for [m] cycles and then for
    [n] more: a cycle depends on the earlier ones only through what the
    service has seen. *)
Theorem loop_composes (E : env) (m n : nat) (h : trace) :
  polling_loop E (m + n) h =
    (inr tt,
     events (polling_loop E m) h
       ++ events (polling_loop E n) (h ++ events (polling_loop E m) h)).
Proof.
  rewrite (run_pair (polling_loop E (m + n)) h).
  now rewrite loop_never_raises, loop_app.
Qed.

Lemma loop_sleeps (E : env) (n : nat) :
  forall h,
    count is_sleep (events (polling_loop E n) h) = n
    /\ count is_register_call (events (polling_loop E n) h) = 0
    /\ forall seconds,
        In (EvSleep seconds) (events (polling_loop E n) h) -> seconds = 5%Z.
Proof.
  induction n as [|n IH]; intros h.
  - repeat split. intros seconds [].
  - rewrite loop_events_step.
    destruct (IH (h ++ events (process_messages E) h ++ [EvSleep 5]))
      as (Hs & Hr & Hfive).
    rewrite !count_app, Hs, Hr, poll_never_sleeps, poll_never_registers.
    repeat split.
    intros seconds Hin. apply in_app_or in Hin as [Hin|Hin].
    + apply in_app_or in Hin as [Hin|Hin].
      * apply (count_zero_not_in is_sleep _ _ (poll_never_sleeps E h)) in Hin.
        discriminate.
      * destruct Hin as [[= <-]|[]]. reflexivity.
    + now apply Hfive.
Qed.

(** X17.  The loop sleeps once after every cycle, always for 5 seconds, and
    never registers the agent again. *)
Theorem loop_sleeps_five_seconds_per_cycle (E : env) (n : nat) (h : trace) :
  let evs := events (polling_loop E n) h in
  count is_sleep evs = n
  /\ count is_register_call evs = 0
  /\ (forall seconds, In (EvSleep seconds) evs -> seconds = 5%Z)
  /\ (forall m,
      n = S m -> exists pre, evs = pre ++ [EvSleep 5]).
Proof.
  intros evs. subst evs.
  destruct (loop_sleeps E n h) as (Hs & Hr & Hfive).
  repeat split; try assumption.
  intros m ->. replace (S m) with (m + 1) by lia.
  rewrite loop_app, (loop_events_step E 0).
  change (events (polling_loop E 0) ?x) with (@nil event).
  rewrite app_nil_r, !app_assoc. eexists. reflexivity.
Qed.

Lemma main_run (E : env) (cycles : nat) (h : trace) :
  let starting :=
    EvLog INFO "Starting agent container for {} (ID: {})"
      [AVal (PStr (AGENT_NAME E)); AVal (PStr (AGENT_ID E))] in
  let register_rq :=
    mkRequest POST (CORE_API_URL E) api_agents_register
      (PDict [("agent_id", PStr (AGENT_ID E));
              ("name", PStr (AGENT_NAME E));
              ("container_id", PStr (HOSTNAME E));
              ("status", PStr "running")]) in
  let h1 := h ++ [starting] in
  let registration := events (register_with_core_system E) h1 in
  let warning :=
    if answered_200 (net E h1 register_rq) then []
    else [EvLog WARNING "Continuing without registration..." []] in
  main E cycles h =
    (inr tt,
     starting :: registration ++ warning
       ++ events (polling_loop E cycles) (h1 ++ registration ++ warning)
       ++ [EvLog INFO "Shutting down agent container" []]).
Proof.
  intros starting register_rq h1 registration warning.
  assert (Hreg : register_with_core_system E h1 =
                 (inr (answered_200 (net E h1 register_rq)), registration)).
  { subst registration. unfold events. rewrite register_run.
    fold register_rq.
    destruct (net E h1 register_rq) as [e|rsp]; simpl; [reflexivity|].
    now destruct (status_code rsp =? 200)%Z. }
  unfold main, bind, logger, emit, ret. fold starting. fold h1.
  rewrite Hreg. subst warning.
  destruct (answered_200 (net E h1 register_rq)); simpl;
    rewrite ?app_nil_r, <- ?app_assoc; simpl;
    match goal with
    | |- context [polling_loop E cycles ?hh] =>
        rewrite (run_pair (polling_loop E cycles) hh), loop_never_raises
    end; simpl; rewrite <- ?app_assoc; reflexivity.
Qed.

(** X18.  A run of [main] that is interrupted after [cycles] whole cycles:
    it logs the start, makes the one registration request and logs its
    outcome, and then polls in every cycle whether or not the registration
    succeeded; a failed registration only adds the WARNING "Continuing
    without registration...".  The run ends with the entry "Shutting down
    agent container". *)
Theorem registration_failure_is_not_fatal
    (E : env) (cycles : nat) (h : trace) :
  let starting :=
    EvLog INFO "Starting agent container for {} (ID: {})"
      [AVal (PStr (AGENT_NAME E)); AVal (PStr (AGENT_ID E))] in
  let register_rq :=
    mkRequest POST (CORE_API_URL E) api_agents_register
      (PDict [("agent_id", PStr (AGENT_ID E));
              ("name", PStr (AGENT_NAME E));
              ("container_id", PStr (HOSTNAME E));
              ("status", PStr "running")]) in
  let answer := net E (h ++ [starting]) register_rq in
  let warning :=
    if answered_200 answer then []
    else [EvLog WARNING "Continuing without registration..." []] in
  exists polling,
    events (main E cycles) h =
      [starting; EvHttp register_rq answer; register_entry answer]
        ++ warning ++ polling
        ++ [EvLog INFO "Shutting down agent container" []]
    /\ fetch_calls polling = cycles
    /\ count is_sleep polling = cycles
    /\ count is_register_call polling = 0.
Proof.
  intros starting register_rq answer warning.
  unfold events. rewrite main_run. cbn [snd].
  fold starting. fold register_rq. fold answer. fold warning.
  assert (Hev : events (register_with_core_system E) (h ++ [starting]) =
                [EvHttp register_rq answer; register_entry answer]).
  { unfold events. rewrite register_run. fold register_rq. fold answer.
    unfold register_entry.
    destruct answer as [e|rsp]; simpl; [reflexivity|].
    now destruct (status_code rsp =? 200)%Z. }
  rewrite Hev.
  eexists. split; [reflexivity|].
  split; [apply loop_fetches_every_cycle|].
  destruct (loop_sleeps E cycles
              ((h ++ [starting])
                 ++ [EvHttp register_rq answer; register_entry answer]
                 ++ warning)) as (Hs & Hr & _).
  split; assumption.
Qed.

(** ** Start-up *)

(** X19.  Reading the names from [config.yaml] is all or nothing: whenever
    a warning is printed, both names are the defaults "Test" and
    "test_agent".  A loaded mapping without an [agent] entry gives the
    defaults with no warning; an [agent] entry that is a mapping gives its
    [class_name] and [package_name], each with its own default; an [agent]
    entry that is anything else (such as a null), and a document that is not
    a mapping (such as an empty file), gives the defaults with a warning, as
    does a file that cannot be opened or parsed. *)
Theorem config_names_default (loaded : Startup.attempt pyval) :
  let defaults := (PStr "Test", PStr "test_agent") in
  let warning e :=
    [("Warning: Could not load config.yaml: {}", [Startup.ShownError e])] in
  let or_else (o : option pyval) (v : pyval) :=
    match o with Some x => x | None => v end in
  (snd (Startup.load_config loaded) <> [] ->
   fst (Startup.load_config loaded) = defaults)
  /\ (forall e, loaded = inl e ->
      Startup.load_config loaded = (defaults, warning e))
  /\ (forall document, loaded = inr document -> is_dict document = false ->
      Startup.load_config loaded =
        (defaults, warning (Startup.Raised (AttributeError "get"))))
  /\ (forall c, loaded = inr (PDict c) -> Dict.get c "agent" = None ->
      Startup.load_config loaded = (defaults, []))
  /\ (forall c section, loaded = inr (PDict c) ->
      Dict.get c "agent" = Some section -> is_dict section = false ->
      Startup.load_config loaded =
        (defaults, warning (Startup.Raised (AttributeError "get"))))
  /\ (forall c a, loaded = inr (PDict c) ->
      Dict.get c "agent" = Some (PDict a) ->
      Startup.load_config loaded =
        ((or_else (Dict.get a "class_name") (PStr "Test"),
          or_else (Dict.get a "package_name") (PStr "test_agent")), [])).
Proof.
  intros defaults warning or_else.
  unfold Startup.load_config, Startup.read_names.
  split; [|split; [|split; [|split; [|split]]]].
  - destruct (Startup.and_then loaded _) as [e|names]; simpl.
    + reflexivity.
    + intros Hne. now destruct Hne.
  - now intros e ->.
  - intros document -> Hd. destruct document; try discriminate; reflexivity.
  - intros c -> Hget. simpl. rewrite Hget. reflexivity.
  - intros c section -> Hget Hs. simpl. rewrite Hget. simpl.
    destruct section; try discriminate; reflexivity.
  - intros c a -> Hget. simpl. rewrite Hget. simpl.
    destruct (Dict.get a "class_name"), (Dict.get a "package_name");
      reflexivity.
Qed.

(** X20.  The container starts exactly when the module [agent] can be
    imported and has the class named after the configuration or, failing
    that, [BaseAgent]; the named class is preferred, and the fallback is
    announced by a warning.  The default class name "Test" stands for the
    attribute "TestAgent". *)
Theorem class_selection
    (py_str : pyval -> string) (class : Type) (agent_class_name : pyval)
    (imported : Startup.attempt (list (string * class))) :
  let wanted := Startup.class_attribute py_str agent_class_name in
  Startup.class_attribute py_str (PStr "Test") = "TestAgent"
  /\ match Startup.select_agent_class py_str class agent_class_name imported
     with
     | (inr c, printed) =>
         exists attrs,
           imported = inr attrs
           /\ match Startup.getattr class attrs wanted with
              | Some named =>
                  c = named
                  /\ printed =
                       [("Successfully imported {}Agent from {}",
                         [Startup.Shown (Startup.shown py_str agent_class_name);
                          Startup.Shown "agent"])]
              | None =>
                  Startup.getattr class attrs "BaseAgent" = Some c
                  /\ printed =
                       [("Warning: Using fallback BaseAgent: {}",
                         [Startup.ShownError
                            (Startup.Raised (AttributeError wanted))])]
              end
     | (inl e, printed) =>
         printed = []
         /\ (imported = inl e
             \/ exists attrs,
                 imported = inr attrs
                 /\ Startup.getattr class attrs wanted = None
                 /\ Startup.getattr class attrs "BaseAgent" = None)
     end.
Proof.
  intros wanted. split; [reflexivity|].
  unfold Startup.select_agent_class. fold wanted.
  destruct imported as [e|attrs]; simpl.
  - split; [reflexivity|]. now left.
  - destruct (Startup.getattr class attrs wanted) as [named|] eqn:Hwanted;
      simpl.
    + exists attrs. rewrite Hwanted. repeat split.
    + destruct (Startup.getattr class attrs "BaseAgent") as [base|] eqn:Hbase;
        simpl.
      * exists attrs. rewrite Hwanted. repeat split. exact Hbase.
      * split; [reflexivity|]. right. now exists attrs.
Qed.

(** ** Two runs

    An agent class that cannot be instantiated: the message is neither
    scored nor reported.  A service that refuses the registration: the
    container warns and polls all the same. *)
Example unbuildable_agent_reports_nothing :
  process_message Cases.unbuildable Samples.m1 [] =
    (inr tt,
     [EvNew false;
      EvLog ERROR "Error processing message {}: {}"
        [AVal (PStr "m1"); AExn (AgentError "no model")]]).
Proof. reflexivity. Qed.

Example unregistered_agent_still_polls :
  let evs := events (main Cases.unregistered 2) [] in
  outcome (main Cases.unregistered 2) [] = inr tt
  /\ count is_register_call evs = 1
  /\ fetch_calls evs = 2
  /\ process_calls evs = 2
  /\ count is_sleep evs = 2
  /\ existsb
       (fun ev =>
          match ev with
          | EvLog WARNING template _ =>
              String.eqb template "Continuing without registration..."
          | _ => false
          end) evs = true.
Proof. repeat split; reflexivity. Qed.
